(** * Kubernetes Stability & Resource Auditor: the audit script, embedded

    The program is a bash script that pipes the output of [kubectl get
    deployments,statefulsets,daemonsets -A -o json] through one jq filter
    and a [while read] loop that appends rows to a CSV file.

    The embedding follows the script stage by stage:
    - [Json]: the values jq works on and the jq builtins the filter uses;
    - [Filter]: the jq filter, one definition per rule of the filter;
    - [Shell]: the [@tsv] rows, the [read] loop and the CSV file;
    - [Manifest]: the workload records kubectl prints, to build inputs;
    - [Script]: the script from its prerequisite checks to the report file;
    - [Report]: what the properties are stated with (categories, the JSON
      projection, a CSV reader, image tags, rule ranks).

    jq errors are modelled by [result]; a jq error ends the jq process, so
    the rows already printed stay and nothing more is printed. The coloured
    console table the loop also prints is not modelled. *)

From Stdlib Require Import List String Ascii ZArith Bool Lia Sorted.
From Stdlib Require Import DecimalString.
Import ListNotations.
Local Open Scope string_scope.
Local Open Scope list_scope.

Set Implicit Arguments.

(** String concatenation, kept apart from list concatenation [++]. *)
Infix "+++" := String.append (right associativity, at level 60).

(* ------------------------------------------------------------------ *)
(** ** Errors *)

(** The outcome of a jq expression that yields one value: the value, or a
    jq error (every jq error is fatal for the filter, which has no [try]). *)
Inductive result (A : Type) : Type :=
| Ok (a : A)
| Err.

Arguments Err {A}.

Definition bind {A B : Type} (r : result A) (k : A -> result B) : result B :=
  match r with
  | Ok a => k a
  | Err => Err
  end.

Notation "x <- r ;; k" := (bind r (fun x => k))
  (at level 61, r at next level, right associativity).

(** Left-to-right evaluation of [f] over a list, stopping at the first
    error: the shape of [[ xs[] | f ]] in jq. *)
Fixpoint collect {A B : Type} (f : A -> result (list B)) (xs : list A)
  : result (list B) :=
  match xs with
  | [] => Ok []
  | x :: rest =>
      ys <- f x ;;
      zs <- collect f rest ;;
      Ok (ys ++ zs)
  end.

(* ------------------------------------------------------------------ *)
(** ** Strings *)

Definition tab : ascii := "009"%char.
Definition comma : ascii := ","%char.
Definition dquote : ascii := "034"%char.

(** [ends_with suf s]: some suffix of [s] is [suf]. *)
Fixpoint ends_with (suf s : string) : bool :=
  String.eqb suf s ||
  match s with
  | EmptyString => false
  | String _ s' => ends_with suf s'
  end.

(** [str_contains sub s]: [sub] occurs in [s]. *)
Fixpoint str_contains (sub s : string) : bool :=
  String.prefix sub s ||
  match s with
  | EmptyString => false
  | String _ s' => str_contains sub s'
  end.

(** The pieces of [s] between occurrences of the character [c]; the
    current piece is accumulated in [cur].  *)
Fixpoint pieces (c : ascii) (cur : string) (s : string) : list string :=
  match s with
  | EmptyString => [cur]
  | String a s' =>
      if Ascii.eqb a c then cur :: pieces c "" s'
      else pieces c (cur +++ String a "") s'
  end.

(** jq's [split(",")] for a one-character separator: the empty string
    splits into the empty array, any other string into its pieces. *)
Definition jq_split (c : ascii) (s : string) : list string :=
  match s with
  | EmptyString => []
  | _ => pieces c "" s
  end.

Fixpoint join (sep : string) (l : list string) : string :=
  match l with
  | [] => ""
  | [x] => x
  | x :: rest => x +++ sep +++ join sep rest
  end.

Fixpoint count_char (c : ascii) (s : string) : nat :=
  match s with
  | EmptyString => 0
  | String a s' => (if Ascii.eqb a c then 1 else 0) + count_char c s'
  end.

(* ------------------------------------------------------------------ *)
(** ** JSON values and the jq builtins of the filter *)

Module Json.

(** A parsed JSON document. Numbers are the integers (of the size of a
    replica count): the only number the filter inspects is [spec.replicas].
    An object is its list of key/value pairs, with distinct keys. *)
#[warnings="-register-all"]
Inductive json : Type :=
| JNull
| JBool (b : bool)
| JNum (n : Z)
| JStr (s : string)
| JArr (elems : list json)
| JObj (fields : list (string * json)).

Fixpoint assoc (k : string) (kvs : list (string * json)) : option json :=
  match kvs with
  | [] => None
  | (k', v) :: rest => if String.eqb k k' then Some v else assoc k rest
  end.

(** [.k]: the field of an object ([null] when the key is missing), [null]
    on [null], an error on every other value. *)
Definition field (k : string) (v : json) : result json :=
  match v with
  | JObj kvs => match assoc k kvs with Some x => Ok x | None => Ok JNull end
  | JNull => Ok JNull
  | _ => Err
  end.

(** [.a.b.c] *)
Fixpoint path (ks : list string) (v : json) : result json :=
  match ks with
  | [] => Ok v
  | k :: rest => x <- field k v ;; path rest x
  end.

(** [.[]]: the elements of an array or the values of an object; an error
    on everything else, [null] included. *)
Definition iter (v : json) : result (list json) :=
  match v with
  | JArr l => Ok l
  | JObj kvs => Ok (map snd kvs)
  | _ => Err
  end.

(** [v == "s"], [v == n], [v == true], [v == null] for the literals the
    filter compares with. *)
Definition eq_str (v : json) (s : string) : bool :=
  match v with JStr t => String.eqb t s | _ => false end.

Definition eq_num (v : json) (n : Z) : bool :=
  match v with JNum m => Z.eqb m n | _ => false end.

Definition eq_true (v : json) : bool :=
  match v with JBool true => true | _ => false end.

Definition is_null (v : json) : bool :=
  match v with JNull => true | _ => false end.

(** jq truth: everything but [null] and [false]. *)
Definition truthy (v : json) : bool :=
  match v with JNull | JBool false => false | _ => true end.

(** [a // b] where [a] yields at most one value: [a]'s value when it is
    truthy; [b] when it is [null], [false] or an error. *)
Definition alternative (a : result json) (b : json) : json :=
  match a with
  | Ok v => if truthy v then v else b
  | Err => b
  end.

(** ["s" + v] for a string on the left: [null] is neutral, a string is
    appended, every other value is an error. *)
Definition str_plus (s : string) (v : json) : result string :=
  match v with
  | JNull => Ok s
  | JStr t => Ok (s +++ t)
  | _ => Err
  end.

(** [endswith(suf)]: strings only. *)
Definition jq_endswith (suf : string) (v : json) : result bool :=
  match v with
  | JStr s => Ok (ends_with suf s)
  | _ => Err
  end.

(** [contains(sub)] with a string argument: substring test on a string,
    an error on a value of any other kind. *)
Definition jq_contains (sub : string) (v : json) : result bool :=
  match v with
  | JStr s => Ok (str_contains sub s)
  | _ => Err
  end.

(** [has(k)] with a string key: objects only; a key whose value is
    [null] is present. *)
Definition has (k : string) (v : json) : result bool :=
  match v with
  | JObj kvs => Ok (match assoc k kvs with Some _ => true | None => false end)
  | _ => Err
  end.

(** Does the array of strings [hay] hold the strings of [needle] as a
    contiguous run starting at its head? *)
Fixpoint run_at (needle : list json) (hay : list string) : bool :=
  match needle, hay with
  | [], _ => true
  | n :: needle', h :: hay' => eq_str n h && run_at needle' hay'
  | _ :: _, [] => false
  end.

Fixpoint has_run (needle : list json) (hay : list string) : bool :=
  match hay with
  | [] => false
  | _ :: hay' => run_at needle hay || has_run needle hay'
  end.

(** [(hay | index(x)) != null] on an array of strings: [index] looks for
    the one-element run [[x]], or for the run [x] itself when [x] is an
    array (an empty run is never found). *)
Definition index_found (x : json) (hay : list string) : bool :=
  match x with
  | JArr [] => false
  | JArr needle => has_run needle hay
  | _ => has_run [x] hay
  end.

End Json.
Import Json.

(* ------------------------------------------------------------------ *)
(** ** The jq filter *)

Module Filter.

(** One issue object of the filter: [{level, issue, detail, rec}]. *)
Record finding : Type := mkFinding {
  level : string;
  issue : string;
  detail : string;
  rec : string
}.

(** [def is_excluded($ns; $list): ($list | split(",") | index($ns)) != null;] *)
Definition is_excluded (ns : json) (list : string) : bool :=
  index_found ns (jq_split comma list).

(** [$item.spec.template.spec.containers[]] *)
Definition containers (item : json) : result (list json) :=
  cs <- path ["spec"; "template"; "spec"; "containers"] item ;;
  iter cs.

(** Rule 1, replicas: Deployments only, a missing count read as 1. *)
Definition check_replicas (item : json) (kind : json) : list finding :=
  if eq_str kind "Deployment" &&
     eq_num (alternative (path ["spec"; "replicas"] item) (JNum 1)) 1
  then [mkFinding "WARN" "Single Replica" "replicas=1"
                  "Increase replicas > 1 for HA"]
  else [].

(** Rule 2, per container: [select(.securityContext.privileged == true)]. *)
Definition privileged_c (c : json) : result (list finding) :=
  p <- path ["securityContext"; "privileged"] c ;;
  if eq_true p then
    n <- field "name" c ;;
    d <- str_plus "Container: " n ;;
    Ok [mkFinding "HIGH" "Privileged Container" d "Avoid privileged mode"]
  else Ok [].

(** Rule 3, per container:
    [select(.image | (endswith(":latest") or (contains(":") | not)))];
    [or] does not evaluate its right side when the left side is true. *)
Definition latest_or_untagged (image : json) : result bool :=
  e <- jq_endswith ":latest" image ;;
  if e then Ok true
  else
    c <- jq_contains ":" image ;;
    Ok (negb c).

Definition image_c (c : json) : result (list finding) :=
  image <- field "image" c ;;
  hit <- latest_or_untagged image ;;
  if hit then
    n <- field "name" c ;;
    d1 <- str_plus "Container: " n ;;
    i <- field "image" c ;;
    d2 <- str_plus (d1 +++ " (") i ;;
    Ok [mkFinding "WARN" "Using Latest Tag" (d2 +++ ")")
                  "Use specific version tag"]
  else Ok [].

(** Rule 4, per container: [select(has("livenessProbe") | not)] and
    [select(has("readinessProbe") | not)]. *)
Definition liveness_c (c : json) : result (list finding) :=
  h <- has "livenessProbe" c ;;
  if negb h then
    n <- field "name" c ;;
    d <- str_plus "Container: " n ;;
    Ok [mkFinding "HIGH" "Missing LivenessProbe" d "Add livenessProbe"]
  else Ok [].

Definition readiness_c (c : json) : result (list finding) :=
  h <- has "readinessProbe" c ;;
  if negb h then
    n <- field "name" c ;;
    d <- str_plus "Container: " n ;;
    Ok [mkFinding "HIGH" "Missing ReadinessProbe" d "Add readinessProbe"]
  else Ok [].

(** Rule 5, per container: the [if]/[elif]/[else empty] on
    [$c.resources.requests] and [$c.resources.limits]. *)
Definition resources_c (c : json) : result (list finding) :=
  rq <- path ["resources"; "requests"] c ;;
  if is_null rq then
    n <- field "name" c ;;
    d <- str_plus "Container: " n ;;
    Ok [mkFinding "CRITICAL" "Missing Requests" d "Define resources.requests"]
  else
    lm <- path ["resources"; "limits"] c ;;
    if is_null lm then
      n <- field "name" c ;;
      d <- str_plus "Container: " n ;;
      Ok [mkFinding "CRITICAL" "Missing Limits" d "Define resources.limits"]
    else Ok [].

(** A per-container rule over the containers of the item, in order. *)
Definition per_container (rule : json -> result (list finding)) (item : json)
  : result (list finding) :=
  cs <- containers item ;;
  collect rule cs.

(** The parenthesised sum of the six arrays. *)
Definition issues (item : json) (kind : json) : result (list finding) :=
  let r1 := check_replicas item kind in
  r2 <- per_container privileged_c item ;;
  r3 <- per_container image_c item ;;
  r4 <- per_container liveness_c item ;;
  r5 <- per_container readiness_c item ;;
  r6 <- per_container resources_c item ;;
  Ok (r1 ++ r2 ++ r3 ++ r4 ++ r5 ++ r6).

End Filter.
Import Filter.

(* ------------------------------------------------------------------ *)
(** ** The rows: [@tsv], the [read] loop and the CSV file *)

Module Shell.

(** [@tsv] escapes tab, carriage return, line feed and backslash. *)
Definition tsv_escape_char (a : ascii) : string :=
  if Ascii.eqb a tab then "\t"
  else if Ascii.eqb a "013"%char then "\r"
  else if Ascii.eqb a "010"%char then "\n"
  else if Ascii.eqb a "\"%char then "\\"
  else String a "".

Fixpoint tsv_escape (s : string) : string :=
  match s with
  | EmptyString => ""
  | String a s' => tsv_escape_char a +++ tsv_escape s'
  end.

(** One cell of [@tsv]: [null] is the empty cell, booleans and numbers are
    printed, strings are escaped, arrays and objects are an error. *)
Definition tsv_field (v : json) : result string :=
  match v with
  | JNull => Ok ""
  | JBool true => Ok "true"
  | JBool false => Ok "false"
  | JNum n => Ok (NilZero.string_of_int (Z.to_int n))
  | JStr s => Ok (tsv_escape s)
  | JArr _ | JObj _ => Err
  end.

(** [[$current_time, $ns, $kind, $name, .level, .issue, .rec, .detail] | @tsv] *)
Definition row_text (current_time a b c : string) (f : finding) : string :=
  join (String tab "")
    [tsv_escape current_time; a; b; c; tsv_escape (level f);
     tsv_escape (issue f); tsv_escape (rec f); tsv_escape (detail f)].

Definition tsv_row (current_time : string) (ns kind name : json) (f : finding)
  : result string :=
  a <- tsv_field ns ;;
  b <- tsv_field kind ;;
  c <- tsv_field name ;;
  Ok (row_text current_time a b c f).

(** What a jq run has printed, and whether it ran to its end ([true]) or
    stopped on an error ([false], exit status 5). *)
Definition stream : Type := (list string * bool)%type.

(** [.[] | [...] | @tsv] over the issues of one item: rows are printed one
    by one until a row fails. *)
Fixpoint emit_rows (current_time : string) (ns kind name : json)
  (fs : list finding) : stream :=
  match fs with
  | [] => ([], true)
  | f :: rest =>
      match tsv_row current_time ns kind name f with
      | Err => ([], false)
      | Ok l =>
          let (ls, ok) := emit_rows current_time ns kind name rest in
          (l :: ls, ok)
      end
  end.

(** The part of the filter before any row is printed, for one item:
    [None] when [select] drops the item, otherwise the three bound
    variables and the issue list. *)
Definition evaluate (exclude_ns : string) (item : json)
  : result (option (json * json * json * list finding)) :=
  sel <- path ["metadata"; "namespace"] item ;;
  if is_excluded sel exclude_ns then Ok None
  else
    ns <- path ["metadata"; "namespace"] item ;;
    kind <- field "kind" item ;;
    name <- path ["metadata"; "name"] item ;;
    fs <- issues item kind ;;
    Ok (Some (ns, kind, name, fs)).

(** [select(is_excluded(.metadata.namespace; $exclude_ns) | not)] lets the
    item through. An item whose namespace cannot be read is not dropped:
    the error ends the run. *)
Definition selected (exclude_ns : string) (item : json) : bool :=
  match path ["metadata"; "namespace"] item with
  | Ok ns => negb (is_excluded ns exclude_ns)
  | Err => true
  end.

Definition audit_item (current_time exclude_ns : string) (item : json)
  : stream :=
  match evaluate exclude_ns item with
  | Err => ([], false)
  | Ok None => ([], true)
  | Ok (Some (ns, kind, name, fs)) => emit_rows current_time ns kind name fs
  end.

(** The items in input order; the first error ends the run. *)
Fixpoint run_items (current_time exclude_ns : string) (items : list json)
  : stream :=
  match items with
  | [] => ([], true)
  | item :: rest =>
      let (ls, ok) := audit_item current_time exclude_ns item in
      if ok then
        let (ls', ok') := run_items current_time exclude_ns rest in
        (ls ++ ls', ok')
      else (ls, false)
  end.

(** [jq -r --arg current_time ... --arg exclude_ns ... '.items[] | ...'] *)
Definition jq_program (current_time exclude_ns : string) (input : json)
  : stream :=
  match (its <- field "items" input ;; iter its) with
  | Err => ([], false)
  | Ok items => run_items current_time exclude_ns items
  end.

(** *** [IFS=$'\t' read -r TIMESTAMP NS KIND NAME LEVEL ISSUE REC DETAIL]

    Tab is an IFS white space character: leading and trailing tabs are
    dropped and a run of tabs is one delimiter. [-r] keeps backslashes.
    The line is taken without NUL bytes: bash drops a NUL it reads, which
    is not modelled. *)

Fixpoint drop_tabs (s : string) : string :=
  match s with
  | EmptyString => ""
  | String a s' => if Ascii.eqb a tab then drop_tabs s' else s
  end.

(** The word up to the next tab, and the rest of the line from that tab. *)
Fixpoint take_word (s : string) : string * string :=
  match s with
  | EmptyString => ("", "")
  | String a s' =>
      if Ascii.eqb a tab then ("", s)
      else let (w, r) := take_word s' in (String a w, r)
  end.

Fixpoint drop_tabs_l (l : list ascii) : list ascii :=
  match l with
  | [] => []
  | a :: l' => if Ascii.eqb a tab then drop_tabs_l l' else l
  end.

Definition drop_trailing_tabs (s : string) : string :=
  string_of_list_ascii (rev (drop_tabs_l (rev (list_ascii_of_string s)))).

Record row_vars : Type := mkVars {
  TIMESTAMP : string; NS : string; KIND : string; NAME : string;
  LEVEL : string; ISSUE : string; REC : string; DETAIL : string
}.

(** The last variable takes the rest of the line, without the tabs
    around it. *)
Definition read_line (line : string) : row_vars :=
  let (v1, r1) := take_word (drop_tabs line) in
  let (v2, r2) := take_word (drop_tabs r1) in
  let (v3, r3) := take_word (drop_tabs r2) in
  let (v4, r4) := take_word (drop_tabs r3) in
  let (v5, r5) := take_word (drop_tabs r4) in
  let (v6, r6) := take_word (drop_tabs r5) in
  let (v7, r7) := take_word (drop_tabs r6) in
  mkVars v1 v2 v3 v4 v5 v6 v7 (drop_trailing_tabs (drop_tabs r7)).

(** [echo "Timestamp,...,Recommendation" > "$CSV_FILE"] *)
Definition csv_header : string :=
  "Timestamp,Namespace,Type,Name,Issue_Level,Issue_Type,Recommendation".

(** [echo "$TIMESTAMP,$NS,$KIND,$NAME,$LEVEL,$ISSUE - $DETAIL,$REC"] *)
Definition csv_row (v : row_vars) : string :=
  TIMESTAMP v +++ "," +++ NS v +++ "," +++ KIND v +++ "," +++ NAME v +++ ","
  +++ LEVEL v +++ "," +++ ISSUE v +++ " - " +++ DETAIL v +++ "," +++ REC v.

(** The lines of the CSV file after the loop: the header, then one row
    per line jq printed. The exit status of jq is not looked at: the
    pipeline's status is the loop's. *)
Definition csv_lines (current_time exclude_ns : string) (input : json)
  : list string :=
  csv_header :: map (fun l => csv_row (read_line l))
                    (fst (jq_program current_time exclude_ns input)).

Definition newline : string := String "010"%char "".

(** The bytes of the file: every [echo] ends its line. *)
Definition csv_document (lines : list string) : string :=
  String.concat "" (map (fun l => l +++ newline) lines).

End Shell.
Import Shell.

(* ------------------------------------------------------------------ *)
(** ** Manifests

    The records [kubectl get -o json] prints, as far as the filter reads
    them. The filter itself declares no types; these records follow the
    paths it reads ([.kind], [.metadata.namespace], [.metadata.name],
    [.spec.replicas], [.spec.template.spec.containers[]], and per
    container [.name], [.image], [.securityContext.privileged],
    [livenessProbe], [readinessProbe], [.resources.requests],
    [.resources.limits]) and are used to build inputs. *)

Module Manifest.

Inductive Kind : Type := Deployment | StatefulSet | DaemonSet.

Definition kind_name (k : Kind) : string :=
  match k with
  | Deployment => "Deployment"
  | StatefulSet => "StatefulSet"
  | DaemonSet => "DaemonSet"
  end.

(** A resource map, e.g. [[("cpu", "100m"); ("memory", "64Mi")]]. *)
Definition quantities : Type := list (string * string).

Record Container : Type := mkContainer {
  c_name : string;
  c_image : string;
  c_privileged : bool;
  c_liveness : bool;
  c_readiness : bool;
  c_requests : option quantities;
  c_limits : option quantities
}.

Record Workload : Type := mkWorkload {
  w_kind : Kind;
  w_namespace : string;
  w_name : string;
  w_replicas : option Z;
  w_containers : list Container
}.

Definition quantities_json (q : quantities) : json :=
  JObj (map (fun kv => (fst kv, JStr (snd kv))) q).

Definition opt_field {A : Type} (k : string) (enc : A -> json) (o : option A)
  : list (string * json) :=
  match o with
  | Some a => [(k, enc a)]
  | None => []
  end.

Definition flag_field (k : string) (v : json) (b : bool)
  : list (string * json) :=
  if b then [(k, v)] else [].

(** A probe body; the filter only tests the key. *)
Definition probe : json := JObj [("tcpSocket", JObj [("port", JNum 80)])].

Definition container_json (c : Container) : json :=
  JObj ([("name", JStr (c_name c)); ("image", JStr (c_image c))]
        ++ flag_field "livenessProbe" probe (c_liveness c)
        ++ flag_field "readinessProbe" probe (c_readiness c)
        ++ [("resources",
              JObj (opt_field "limits" quantities_json (c_limits c)
                    ++ opt_field "requests" quantities_json (c_requests c)))]
        ++ flag_field "securityContext" (JObj [("privileged", JBool true)])
             (c_privileged c)).

(** A string when the field is there, [null] when it is not. *)
Definition opt_json (o : option string) : json :=
  match o with
  | Some s => JStr s
  | None => JNull
  end.

(** A workload record with any of kind, namespace and name left out. *)
Definition raw_workload (kind ns name : option string) (replicas : option Z)
  (cs : list json) : json :=
  JObj (opt_field "kind" JStr kind
        ++ [("metadata",
              JObj (opt_field "name" JStr name
                    ++ opt_field "namespace" JStr ns));
            ("spec",
              JObj (opt_field "replicas" JNum replicas
                    ++ [("template",
                          JObj [("spec", JObj [("containers", JArr cs)])])]))]).

Definition workload_json (w : Workload) : json :=
  raw_workload (Some (kind_name (w_kind w))) (Some (w_namespace w))
    (Some (w_name w)) (w_replicas w) (map container_json (w_containers w)).

(** The [List] object kubectl prints. *)
Definition list_json (items : list json) : json :=
  JObj [("apiVersion", JStr "v1"); ("items", JArr items);
        ("kind", JStr "List")].

End Manifest.
Import Manifest.

(* ------------------------------------------------------------------ *)
(** ** The script as a whole *)

Module Script.

(** What the script reads from its surroundings, and the report file. *)
Record world : Type := mkWorld {
  kubectl_installed : bool;
  jq_installed : bool;
  cluster_reachable : bool;          (* [kubectl cluster-info] succeeds *)
  kubectl_get : option json;         (* the document [kubectl get] prints,
                                        [None] when the command fails *)
  env_EXCLUDE_NS : option string;    (* the environment variable *)
  date_utc : string;                 (* what [date -u +...] prints *)
  csv_file : option string           (* [k8s_audit_report.csv], if any *)
}.

(** [EXCLUDE_NS="${EXCLUDE_NS:-kube-system,...}"]: the default replaces an
    unset and also an empty variable. *)
Definition default_exclude : string :=
  "kube-system,kube-public,local-path-storage,ingress-nginx,cert-manager".

Definition EXCLUDE_NS (env : option string) : string :=
  match env with
  | None | Some EmptyString => default_exclude
  | Some s => s
  end.

(** The exit status and the report file after the script. Under [set -e]
    a failing [kubectl get] ends the script before the file is touched;
    the status of jq is hidden by the pipeline. The console table is not
    modelled. *)
Definition script (w : world) : nat * option string :=
  if negb (kubectl_installed w) then (1, csv_file w)
  else if negb (jq_installed w) then (1, csv_file w)
  else if negb (cluster_reachable w) then (1, csv_file w)
  else
    match kubectl_get w with
    | None => (1, csv_file w)
    | Some input =>
        (0, Some (csv_document
                    (csv_lines (date_utc w) (EXCLUDE_NS (env_EXCLUDE_NS w))
                       input)))
    end.

End Script.
Import Script.

(* ------------------------------------------------------------------ *)
(** ** Categories and the JSON projection *)

Module Report.

Inductive Category : Type := Stability | Security | FinOps.

Definition category_name (c : Category) : string :=
  match c with
  | Stability => "Stability"
  | Security => "Security"
  | FinOps => "FinOps"
  end.

(** Modelled from the spec: the Category Classifier of section 4.4, which
    the script does not have (its rows carry no category). A fixed total
    map from the issue type to a category, Stability for an issue type it
    does not know. The issue types are the [issue] strings of the filter. *)
Definition classify (issueType : string) : Category :=
  if String.eqb issueType "Privileged Container" then Security
  else if String.eqb issueType "Missing Requests" then FinOps
  else if String.eqb issueType "Missing Limits" then FinOps
  else Stability.

(** Modelled from the spec: the JSON projection of section 4.6, which the
    script does not have: the array of finding objects with the field
    names of section 3, one object per row the loop reads. *)
Definition finding_object (v : row_vars) : json :=
  JObj [("timestamp", JStr (TIMESTAMP v));
        ("namespace", JStr (NS v));
        ("resourceKind", JStr (KIND v));
        ("resourceName", JStr (NAME v));
        ("level", JStr (LEVEL v));
        ("category", JStr (category_name (classify (ISSUE v))));
        ("issueType", JStr (ISSUE v));
        ("detail", JStr (DETAIL v));
        ("recommendation", JStr (REC v))].

Definition json_projection (current_time exclude_ns : string) (input : json)
  : json :=
  JArr (map (fun l => finding_object (read_line l))
            (fst (jq_program current_time exclude_ns input))).

(** A reader of CSV: a comma outside double quotes ends a column. *)
Fixpoint csv_columns (quoted : bool) (cur : string) (s : string)
  : list string :=
  match s with
  | EmptyString => [cur]
  | String a s' =>
      if Ascii.eqb a dquote then csv_columns (negb quoted) cur s'
      else if Ascii.eqb a comma && negb quoted
           then cur :: csv_columns false "" s'
           else csv_columns quoted (cur +++ String a "") s'
  end.

(** The tag of an image reference [[host[:port]/]path[:tag][@digest]], as
    the words "tag" and "no explicit tag" are used for images: the digest
    is left out, and the tag is what follows the colon in the last path
    component. The filter does not compute this; it is what the claims on
    image tags are compared with. *)
Definition image_tag (image : string) : option string :=
  let undigested := hd "" (pieces "@"%char "" image) in
  let component := last (pieces "/"%char "" undigested) "" in
  match pieces ":"%char "" component with
  | _ :: t :: _ => Some t
  | _ => None
  end.

Definition untagged_or_latest (image : string) : bool :=
  match image_tag image with
  | None => true
  | Some t => String.eqb t "latest"
  end.

(** The place of a finding's rule in the filter's sum of arrays. *)
Definition rule_rank (f : finding) : nat :=
  if String.eqb (issue f) "Single Replica" then 0
  else if String.eqb (issue f) "Privileged Container" then 1
  else if String.eqb (issue f) "Using Latest Tag" then 2
  else if String.eqb (issue f) "Missing LivenessProbe" then 3
  else if String.eqb (issue f) "Missing ReadinessProbe" then 4
  else 5.

(** The per-container rules with their ranks. *)
Definition container_rules : list (nat * (json -> result (list finding))) :=
  [(1, privileged_c); (2, image_c); (3, liveness_c); (4, readiness_c);
   (5, resources_c)].

Definition is_single_replica (f : finding) : bool :=
  String.eqb (issue f) "Single Replica".

(** A list of findings sorted by rank, all of rank at least [k]. *)
Definition ranked_from (k : nat) (l : list finding) : Prop :=
  StronglySorted le (map rule_rank l) /\
  Forall (fun f => k <= rule_rank f) l.

End Report.
Import Report.

(** ** Sample inputs *)

Definition app_latest : Container :=
  mkContainer "app" "app:latest" false false false None None.

Definition web : Workload :=
  mkWorkload Deployment "prod" "web" None [app_latest].

Definition registry_app : Container :=
  mkContainer "app" "registry.local:5000/app" false true true
    (Some [("cpu", "100m")]) (Some [("cpu", "200m")]).

Definition web3 : Workload :=
  mkWorkload Deployment "prod" "web" (Some 3%Z) [app_latest].

Definition db : Workload :=
  mkWorkload StatefulSet "prod" "db" (Some 1%Z) [app_latest].

Definition web_upper : Workload :=
  mkWorkload Deployment "Prod" "web" (Some 3%Z) [app_latest].

(** The findings of the one container of the sample workloads. *)
Definition app_findings : list finding :=
  [mkFinding "WARN" "Using Latest Tag" "Container: app (app:latest)"
     "Use specific version tag";
   mkFinding "HIGH" "Missing LivenessProbe" "Container: app"
     "Add livenessProbe";
   mkFinding "HIGH" "Missing ReadinessProbe" "Container: app"
     "Add readinessProbe";
   mkFinding "CRITICAL" "Missing Requests" "Container: app"
     "Define resources.requests"].

Definition single_replica : finding :=
  mkFinding "WARN" "Single Replica" "replicas=1" "Increase replicas > 1 for HA".

(** A Deployment record without a name. *)
Definition nameless : json :=
  raw_workload (Some "Deployment") (Some "prod") None None
    [container_json app_latest].

(** A Deployment record whose pod template lists no containers. *)
Definition no_containers : json :=
  JObj [("kind", JStr "Deployment");
        ("metadata", JObj [("name", JStr "broken"); ("namespace", JStr "prod")]);
        ("spec", JObj [("replicas", JNum 2);
                       ("template", JObj [("spec", JObj [])])])].

Definition comma_image : Container :=
  mkContainer "app" "busybox,1.36" false true true
    (Some [("cpu", "100m")]) (Some [("cpu", "200m")]).

Definition typo : Workload :=
  mkWorkload Deployment "prod" "web" (Some 2%Z) [comma_image].

Definition first_run : world :=
  mkWorld true true true (Some (list_json [workload_json web])) None
    "2026-01-01T00:00:00Z" None.

Definition second_run : world :=
  mkWorld true true true (Some (list_json [workload_json web])) None
    "2026-01-01T00:00:00Z"
    (Some "Timestamp,Namespace,Type,Name,Issue_Level,Issue_Type,Recommendation").

(* ------------------------------------------------------------------ *)
(** ** The console table *)

Module Console.

Definition ESC : ascii := "027"%char.

(** [RED='\033[0;31m'] and the other colours, as [printf] writes them
    when they stand in its format string. *)
Definition RED : string := String ESC "[0;31m".
Definition GREEN : string := String ESC "[0;32m".
Definition YELLOW : string := String ESC "[0;33m".
Definition BLUE : string := String ESC "[0;34m".
Definition NC : string := String ESC "[0m".

(** [COLOR=$NC] and then the three [if [[ "$LEVEL" == ... ]]] in turn. *)
Definition COLOR (LEVEL : string) : string :=
  let c0 := NC in
  let c1 := if String.eqb LEVEL "CRITICAL" then RED else c0 in
  let c2 := if String.eqb LEVEL "HIGH" then RED else c1 in
  if String.eqb LEVEL "WARN" then YELLOW else c2.

(** [${X:0:n}] for a value of one-byte characters (ASCII, or any value in
    a single-byte locale): bash cuts after [n] characters and [printf]
    pads by bytes, and the two agree only then. *)
Definition truncate (n : nat) (s : string) : string := substring 0 n s.

Fixpoint spaces (n : nat) : string :=
  match n with
  | 0 => ""
  | S n' => String " " (spaces n')
  end.

(** [%-ws]: padded with spaces on the right to the width [w]. *)
Definition left_justify (w : nat) (s : string) : string :=
  s +++ spaces (w - String.length s).

(** The text between the colour codes of
    [printf "${COLOR}%-20s %-12s %-30s %-10s %-s${NC}\n" ...]. *)
Definition console_text (v : row_vars) : string :=
  let p_NS := truncate 20 (NS v) in
  let p_KIND := truncate 12 (KIND v) in
  let p_NAME := truncate 30 (NAME v) in
  let p_LEVEL := truncate 10 (LEVEL v) in
  let p_ISSUE := truncate 50 (ISSUE v +++ ": " +++ DETAIL v) in
  left_justify 20 p_NS +++ " " +++ left_justify 12 p_KIND +++ " "
  +++ left_justify 30 p_NAME +++ " " +++ left_justify 10 p_LEVEL +++ " "
  +++ p_ISSUE.

Definition console_row (v : row_vars) : string :=
  COLOR (LEVEL v) +++ console_text v +++ NC +++ newline.

End Console.
Import Console.

(* ------------------------------------------------------------------ *)
(** ** The dashboard (App.tsx) *)

Module Dashboard.

(** [interface AuditItem]. The field [Type] is written [Type_]. The
    category is optional: the table itself writes
    [item.Category || 'Stability'] for an item without one. *)
Record AuditItem : Type := mkItem {
  Timestamp : string;
  Namespace : string;
  Type_ : string;
  Name : string;
  Issue_Level : string;
  Issue_Type : string;
  Recommendation : string;
  Category : option string
}.

(** [data.filter(i => i.Issue_Level === level).length] *)
Definition count_level (level : string) (data : list AuditItem) : nat :=
  List.length (filter (fun i => String.eqb (Issue_Level i) level) data).

Record Stats : Type := mkStats {
  total : nat;
  critical : nat;
  high : nat;
  warn : nat
}.

(** [const stats = { total: data.length, critical: ..., high: ..., warn: ... }] *)
Definition stats (data : list AuditItem) : Stats :=
  mkStats (List.length data) (count_level "CRITICAL" data)
    (count_level "HIGH" data) (count_level "WARN" data).

Record Slice : Type := mkSlice {
  slice_name : string;
  value : nat;
  color : string
}.

(** [const chartData = [ ... ].filter(d => d.value > 0)] *)
Definition chartData (data : list AuditItem) : list Slice :=
  filter (fun d => Nat.ltb 0 (value d))
    [mkSlice "Critical" (critical (stats data)) "#ef4444";
     mkSlice "High" (high (stats data)) "#f97316";
     mkSlice "Warning" (warn (stats data)) "#eab308"].

(** [i.Category === activeCategory] *)
Definition category_is (i : AuditItem) (activeCategory : string) : bool :=
  match Category i with
  | Some c => String.eqb c activeCategory
  | None => false
  end.

(** The rows of the table:
    [data.filter(i => activeCategory === 'All' || i.Category === activeCategory)] *)
Definition visible (activeCategory : string) (data : list AuditItem)
  : list AuditItem :=
  filter (fun i => String.eqb activeCategory "All"
                   || category_is i activeCategory) data.

(** The category cell of a row: [item.Category || 'Stability']; an absent
    and an empty category are both falsy. *)
Definition category_label (i : AuditItem) : string :=
  match Category i with
  | Some (String a c) => String a c
  | _ => "Stability"
  end.

(** The FinOps Waste card:
    [data.filter(i => i.Category === 'FinOps').length] *)
Definition finops_waste (data : list AuditItem) : nat :=
  List.length (filter (fun i => category_is i "FinOps") data).

(** [downloadCSV]: the text handed to [encodeURI]; the encoding and the
    download link are not modelled. *)
Definition headers : list string :=
  ["Timestamp"; "Namespace"; "Type"; "Name"; "Category"; "Level"; "Issue";
   "Recommendation"].

(** The template literal of a value that may be [undefined]. *)
Definition template (s : option string) : string :=
  match s with
  | Some x => x
  | None => "undefined"
  end.

(** The values of one row, in the order of [headers]. *)
Definition export_values (i : AuditItem) : list string :=
  [Timestamp i; Namespace i; Type_ i; Name i; template (Category i);
   Issue_Level i; Issue_Type i; Recommendation i].

(** The template literal that wraps a value in double quotes. *)
Definition quoted (s : string) : string :=
  String dquote (s +++ String dquote "").

Definition export_row (i : AuditItem) : string :=
  join "," (map quoted (export_values i)).

(** [None] when [data.length === 0]: the function returns at once. *)
Definition csvContent (data : list AuditItem) : option string :=
  match data with
  | [] => None
  | _ =>
      Some ("data:text/csv;charset=utf-8,"
            +++ join newline (join "," headers :: map export_row data))
  end.

(** The state the two fetches change. *)
Record ui : Type := mkUi {
  data : list AuditItem;
  loading : bool;
  lastRun : option string;
  error : option string
}.

(** What [fetch] and [res.json()] give: an exception, or the fields of
    the answer the code reads. *)
Inductive report_reply : Type :=
| ReportThrows
| ReportJson (data : option (list AuditItem)).

Inductive audit_reply : Type :=
| AuditThrows
| AuditJson (status : option string) (message : option string).

(** [fetchReport]: [setData(json.data || [])]; an exception is logged and
    nothing else. *)
Definition fetchReport (st : ui) (r : report_reply) : ui :=
  match r with
  | ReportThrows => st
  | ReportJson d =>
      mkUi (match d with Some l => l | None => [] end)
        (loading st) (lastRun st) (error st)
  end.

(** [json.message || 'Audit failed'] *)
Definition failure_message (message : option string) : string :=
  match message with
  | Some (String a m) => String a m
  | _ => "Audit failed"
  end.

(** [runAudit], with the time [now] that [toLocaleTimeString] gives. *)
Definition runAudit (st : ui) (now : string) (a : audit_reply)
  (r : report_reply) : ui :=
  let st1 := mkUi (data st) true (lastRun st) None in
  let st2 :=
    match a with
    | AuditThrows =>
        mkUi (data st1) (loading st1) (lastRun st1)
          (Some "Failed to connect to backend")
    | AuditJson status message =>
        match status with
        | Some "success" =>
            fetchReport (mkUi (data st1) (loading st1) (Some now) (error st1)) r
        | _ =>
            mkUi (data st1) (loading st1) (lastRun st1)
              (Some (failure_message message))
        end
    end in
  mkUi (data st2) false (lastRun st2) (error st2).

End Dashboard.

(* ------------------------------------------------------------------ *)
(** ** Notions the further properties are stated with *)

(** The level, issue and recommendation texts the filter can write. *)
Definition catalogue : list (string * string * string) :=
  [("WARN", "Single Replica", "Increase replicas > 1 for HA");
   ("HIGH", "Privileged Container", "Avoid privileged mode");
   ("WARN", "Using Latest Tag", "Use specific version tag");
   ("HIGH", "Missing LivenessProbe", "Add livenessProbe");
   ("HIGH", "Missing ReadinessProbe", "Add readinessProbe");
   ("CRITICAL", "Missing Requests", "Define resources.requests");
   ("CRITICAL", "Missing Limits", "Define resources.limits")].

(** The item has one of the three levels the cards count. *)
Definition known_level (i : Dashboard.AuditItem) : bool :=
  String.eqb (Dashboard.Issue_Level i) "CRITICAL"
  || String.eqb (Dashboard.Issue_Level i) "HIGH"
  || String.eqb (Dashboard.Issue_Level i) "WARN".

(** The finding is one of the catalogue and its detail names a container. *)
Definition catalogued (f : finding) : Prop :=
  In (level f, issue f, rec f) catalogue /\
  (detail f = "replicas=1" \/ exists t, detail f = "Container: " +++ t).

Definition nonempty (s : string) : bool :=
  match s with
  | EmptyString => false
  | String _ _ => true
  end.

(** The cells that follow the first cell that is not empty. *)
Fixpoint after_first (cells : list string) : list string :=
  match cells with
  | [] => []
  | c :: rest => if nonempty c then rest else after_first rest
  end.

(** A container manifest on which no per-container rule fires. *)
Definition clean (c : Container) : bool :=
  negb (c_privileged c)
  && negb (ends_with ":latest" (c_image c)
           || negb (str_contains ":" (c_image c)))
  && c_liveness c && c_readiness c
  && match c_requests c with Some _ => true | None => false end
  && match c_limits c with Some _ => true | None => false end.

(** A workload manifest on which the replicas rule fires. *)
Definition lone (w : Workload) : bool :=
  match w_kind w, w_replicas w with
  | Deployment, None => true
  | Deployment, Some n => Z.eqb n 1
  | _, _ => false
  end.

(** What each rule yields on a container manifest. *)
Definition privileged_m (c : Container) : list finding :=
  if c_privileged c
  then [mkFinding "HIGH" "Privileged Container" ("Container: " +++ c_name c)
          "Avoid privileged mode"]
  else [].

Definition image_m (c : Container) : list finding :=
  if ends_with ":latest" (c_image c) || negb (str_contains ":" (c_image c))
  then [mkFinding "WARN" "Using Latest Tag"
          (((("Container: " +++ c_name c) +++ " (") +++ c_image c) +++ ")")
          "Use specific version tag"]
  else [].

Definition liveness_m (c : Container) : list finding :=
  if c_liveness c then []
  else [mkFinding "HIGH" "Missing LivenessProbe" ("Container: " +++ c_name c)
          "Add livenessProbe"].

Definition readiness_m (c : Container) : list finding :=
  if c_readiness c then []
  else [mkFinding "HIGH" "Missing ReadinessProbe" ("Container: " +++ c_name c)
          "Add readinessProbe"].

Definition resources_m (c : Container) : list finding :=
  match c_requests c, c_limits c with
  | None, _ =>
      [mkFinding "CRITICAL" "Missing Requests" ("Container: " +++ c_name c)
         "Define resources.requests"]
  | Some _, None =>
      [mkFinding "CRITICAL" "Missing Limits" ("Container: " +++ c_name c)
         "Define resources.limits"]
  | Some _, Some _ => []
  end.

(** The issue list of a workload manifest, rule by rule. *)
Definition manifest_issues (w : Workload) : list finding :=
  (if lone w then [single_replica] else [])
  ++ flat_map privileged_m (w_containers w)
  ++ flat_map image_m (w_containers w)
  ++ flat_map liveness_m (w_containers w)
  ++ flat_map readiness_m (w_containers w)
  ++ flat_map resources_m (w_containers w).

(** The CSV row of a finding of a workload manifest: the row the [echo]
    writes from the eight escaped cells. *)
Definition report_row (current_time : string) (w : Workload) (f : finding)
  : string :=
  csv_row (mkVars (tsv_escape current_time) (tsv_escape (w_namespace w))
             (tsv_escape (kind_name (w_kind w))) (tsv_escape (w_name w))
             (tsv_escape (level f)) (tsv_escape (issue f))
             (tsv_escape (rec f)) (tsv_escape (detail f))).

(** The namespaces of the default exclusion list. *)
Definition default_namespaces : list string :=
  ["kube-system"; "kube-public"; "local-path-storage"; "ingress-nginx";
   "cert-manager"].

(** The world with another answer of [kubectl get]. *)
Definition with_kubectl_get (w : world) (answer : option json) : world :=
  mkWorld (kubectl_installed w) (jq_installed w) (cluster_reachable w) answer
    (env_EXCLUDE_NS w) (date_utc w) (csv_file w).

Definition NUL : ascii := "000"%char.

(** The value holds no NUL byte. *)
Definition no_nul (s : string) : Prop := count_char NUL s = 0.

(** The value is made of ASCII characters: one byte each. *)
Definition ascii_only (s : string) : Prop :=
  Forall (fun a => nat_of_ascii a < 128) (list_ascii_of_string s).

(** A container manifest whose name and image hold no NUL byte. *)
Definition container_no_nul (c : Container) : Prop :=
  no_nul (c_name c) /\ no_nul (c_image c).

Definition LF : ascii := "010"%char.
Definition CR : ascii := "013"%char.
Definition backslash : ascii := "\"%char.

(** A privileged container without probes or resources on an untagged
    image: every rule fires on it. *)
Definition worst : Container :=
  mkContainer "root" "nginx" true false false None None.

Definition risky : Workload :=
  mkWorkload Deployment "prod" "risky" None [worst].

(* ------------------------------------------------------------------ *)
(** * Properties *)

(** ** Results and [collect] *)

Lemma bind_ok {A B : Type} (r : result A) (k : A -> result B) (b : B) :
  bind r k = Ok b -> exists a, r = Ok a /\ k a = Ok b.
Proof.
  destruct r as [a|]; cbn [bind]; intros H.
  - exists a. split; [reflexivity | exact H].
  - discriminate H.
Qed.

(** Take apart a hypothesis [x <- r ;; k = Ok b]. *)
Ltac inv_bind H :=
  let a := fresh "v" in
  let Ha := fresh "E" in
  apply bind_ok in H; destruct H as (a & Ha & H); cbv beta in H.

Ltac inv_ok H := injection H as H; subst.

Section Collect.
Context {A B : Type}.
Variable f : A -> result (list B).

(** A successful [collect] is the concatenation, in order, of the
    results on each element. *)
Lemma collect_ok (xs : list A) (ys : list B) :
  collect f xs = Ok ys ->
  exists per, Forall2 (fun x l => f x = Ok l) xs per /\ ys = List.concat per.
Proof.
  revert ys. induction xs as [|x xs IH]; cbn [collect]; intros ys H.
  - inv_ok H. exists []. split; [constructor | reflexivity].
  - inv_bind H. inv_bind H. inv_ok H.
    destruct (IH _ E0) as (per & Hper & ->).
    exists (v :: per). split; [constructor; assumption | reflexivity].
Qed.

Lemma collect_Forall (P : B -> Prop) (xs : list A) (ys : list B) :
  (forall x l, f x = Ok l -> Forall P l) ->
  collect f xs = Ok ys -> Forall P ys.
Proof.
  intros HP. revert ys. induction xs as [|x xs IH]; cbn [collect]; intros ys H.
  - inv_ok H. constructor.
  - inv_bind H. inv_bind H. inv_ok H.
    apply Forall_app. split; [eapply HP; eassumption | apply IH; assumption].
Qed.

(** [collect] succeeds when [f] succeeds on every element. *)
Lemma collect_total (xs : list A) :
  (forall x, In x xs -> exists l, f x = Ok l) ->
  exists ys, collect f xs = Ok ys.
Proof.
  induction xs as [|x xs IH]; intros Hf; cbn [collect].
  - eexists; reflexivity.
  - destruct (Hf x (or_introl eq_refl)) as (l & ->).
    destruct IH as (ys & ->); [intros; apply Hf; right; assumption|].
    cbn [bind]. eexists; reflexivity.
Qed.
End Collect.

(** ** Strings *)

Lemma prefix_app (p s : string) :
  String.prefix p s = true <-> exists q, s = p +++ q.
Proof.
  revert s. induction p as [|a p IH]; intros s.
  - split; [intros _; exists s; reflexivity | intros _; destruct s; reflexivity].
  - destruct s as [|b s]; cbn.
    + split; [discriminate | intros (q & Hq); discriminate Hq].
    + destruct (Ascii.ascii_dec a b) as [->|Hab].
      * rewrite IH. split; intros (q & Hq); exists q.
        -- now rewrite Hq.
        -- now injection Hq.
      * split; [discriminate | intros (q & Hq); injection Hq; congruence].
Qed.

(** [str_contains] is the substring test. *)
Lemma str_contains_spec (sub s : string) :
  str_contains sub s = true <-> exists p q, s = p +++ sub +++ q.
Proof.
  induction s as [|a s IH]; cbn [str_contains]; rewrite orb_true_iff, prefix_app.
  - split.
    + intros [(q & Hq) | H]; [exists "", q; exact Hq | discriminate H].
    + intros (p & q & H). left. destruct p; [exists q; exact H|discriminate H].
  - rewrite IH. split.
    + intros [(q & Hq) | (p & q & Hq)].
      * exists "", q. exact Hq.
      * exists (String a p), q. cbn. now rewrite Hq.
    + intros (p & q & H). destruct p as [|b p].
      * left. exists q. exact H.
      * right. exists p, q. cbn in H. now injection H.
Qed.

(** [ends_with] is the suffix test. *)
Lemma ends_with_spec (suf s : string) :
  ends_with suf s = true <-> exists p, s = p +++ suf.
Proof.
  induction s as [|a s IH]; cbn [ends_with]; rewrite orb_true_iff, String.eqb_eq.
  - split.
    + intros [-> | H]; [exists ""; reflexivity | discriminate H].
    + intros (p & H). left. destruct p; [exact (eq_sym H) | discriminate H].
  - rewrite IH. split.
    + intros [-> | (p & ->)]; [exists ""; reflexivity | exists (String a p); reflexivity].
    + intros (p & H). destruct p as [|b p].
      * left. exact (eq_sym H).
      * right. exists p. cbn in H. now injection H.
Qed.

(** ** The shape of each rule's result *)

(** Take apart a hypothesis stating that a rule succeeded. *)
Ltac crack H :=
  repeat match type of H with
         | bind _ _ = Ok _ => inv_bind H
         | (if ?b then _ else _) = Ok _ => destruct b eqn:?
         | Ok _ = Ok _ => inv_ok H
         end.

Lemma privileged_c_shape (c : json) (l : list finding) :
  privileged_c c = Ok l ->
  l = [] \/
  exists d, l = [mkFinding "HIGH" "Privileged Container" d
                   "Avoid privileged mode"].
Proof.
  unfold privileged_c. intros H. crack H; [right; eexists; reflexivity | now left].
Qed.

Lemma image_c_shape (c : json) (l : list finding) :
  image_c c = Ok l ->
  l = [] \/
  exists d, l = [mkFinding "WARN" "Using Latest Tag" d
                   "Use specific version tag"].
Proof.
  unfold image_c. intros H. crack H; [right; eexists; reflexivity | now left].
Qed.

Lemma liveness_c_shape (c : json) (l : list finding) :
  liveness_c c = Ok l ->
  l = [] \/
  exists d, l = [mkFinding "HIGH" "Missing LivenessProbe" d
                   "Add livenessProbe"].
Proof.
  unfold liveness_c. intros H. crack H; [right; eexists; reflexivity | now left].
Qed.

Lemma readiness_c_shape (c : json) (l : list finding) :
  readiness_c c = Ok l ->
  l = [] \/
  exists d, l = [mkFinding "HIGH" "Missing ReadinessProbe" d
                   "Add readinessProbe"].
Proof.
  unfold readiness_c. intros H. crack H; [right; eexists; reflexivity | now left].
Qed.

Lemma resources_c_shape (c : json) (l : list finding) :
  resources_c c = Ok l ->
  l = [] \/
  (exists d, l = [mkFinding "CRITICAL" "Missing Requests" d
                    "Define resources.requests"]) \/
  (exists d, l = [mkFinding "CRITICAL" "Missing Limits" d
                    "Define resources.limits"]).
Proof.
  unfold resources_c. intros H. crack H.
  - right; left; eexists; reflexivity.
  - right; right; eexists; reflexivity.
  - now left.
Qed.

(** Every finding of a per-container rule carries the rank of its rule. *)
Lemma container_rules_rank (k : nat) (rule : json -> result (list finding)) :
  In (k, rule) container_rules ->
  forall c l, rule c = Ok l -> Forall (fun f => rule_rank f = k) l.
Proof.
  unfold container_rules. cbn [In].
  intros [E|[E|[E|[E|[E|[]]]]]] c l H; injection E as <- <-.
  - destruct (privileged_c_shape _ H) as [->|(d & ->)]; repeat constructor.
  - destruct (image_c_shape _ H) as [->|(d & ->)]; repeat constructor.
  - destruct (liveness_c_shape _ H) as [->|(d & ->)]; repeat constructor.
  - destruct (readiness_c_shape _ H) as [->|(d & ->)]; repeat constructor.
  - destruct (resources_c_shape _ H) as [->|[(d & ->)|(d & ->)]];
      repeat constructor.
Qed.

Ltac in_rules := unfold container_rules; cbn [In]; auto 10.

Lemma per_container_rank (k : nat) (rule : json -> result (list finding))
  (item : json) (fs : list finding) :
  In (k, rule) container_rules ->
  per_container rule item = Ok fs -> Forall (fun f => rule_rank f = k) fs.
Proof.
  intros Hin H. unfold per_container in H. inv_bind H.
  eapply collect_Forall; [|exact H].
  apply container_rules_rank; assumption.
Qed.

Lemma check_replicas_rank (item kind : json) :
  Forall (fun f => rule_rank f = 0) (check_replicas item kind).
Proof.
  unfold check_replicas.
  destruct (_ && _); repeat constructor.
Qed.

(** ** Filtering a list whose elements all pass, or all fail *)

Lemma filter_all {A : Type} (p : A -> bool) (l : list A) :
  Forall (fun x => p x = true) l -> filter p l = l.
Proof.
  induction 1 as [|x l Hx _ IH]; cbn [filter]; [reflexivity|].
  now rewrite Hx, IH.
Qed.

Lemma filter_none {A : Type} (p : A -> bool) (l : list A) :
  Forall (fun x => p x = false) l -> filter p l = [].
Proof.
  induction 1 as [|x l Hx _ IH]; cbn [filter]; [reflexivity|].
  now rewrite Hx, IH.
Qed.

Lemma filter_rank (k j : nat) (l : list finding) :
  Forall (fun f => rule_rank f = j) l ->
  filter (fun f => Nat.eqb (rule_rank f) k) l = if Nat.eqb j k then l else [].
Proof.
  intros H. destruct (Nat.eqb j k) eqn:E.
  - apply filter_all. eapply Forall_impl; [|exact H].
    cbv beta. intros f ->. exact E.
  - apply filter_none. eapply Forall_impl; [|exact H].
    cbv beta. intros f ->. exact E.
Qed.

(** The six arrays of a successful evaluation. *)
Lemma issues_ok (item kind : json) (fs : list finding) :
  issues item kind = Ok fs ->
  exists r2 r3 r4 r5 r6,
    per_container privileged_c item = Ok r2 /\
    per_container image_c item = Ok r3 /\
    per_container liveness_c item = Ok r4 /\
    per_container readiness_c item = Ok r5 /\
    per_container resources_c item = Ok r6 /\
    fs = check_replicas item kind ++ r2 ++ r3 ++ r4 ++ r5 ++ r6.
Proof.
  unfold issues. intros H. cbv zeta in H.
  do 5 inv_bind H. inv_ok H.
  do 5 eexists. repeat split; eassumption.
Qed.

(** What a successful [evaluate] of a kept item bound and computed. *)
Lemma evaluate_ok (exclude_ns : string) (item ns kind name : json)
  (fs : list finding) :
  evaluate exclude_ns item = Ok (Some (ns, kind, name, fs)) ->
  path ["metadata"; "namespace"] item = Ok ns /\
  is_excluded ns exclude_ns = false /\
  field "kind" item = Ok kind /\
  path ["metadata"; "name"] item = Ok name /\
  issues item kind = Ok fs.
Proof.
  unfold evaluate. intros H. inv_bind H.
  destruct (is_excluded v exclude_ns) eqn:Hex; [discriminate H|].
  do 4 inv_bind H. inv_ok H.
  rewrite E0 in E. inv_ok E. repeat split; assumption.
Qed.

Lemma rank_not_single (k : nat) (l : list finding) :
  k <> 0 ->
  Forall (fun f => rule_rank f = k) l ->
  Forall (fun f => is_single_replica f = false) l.
Proof.
  intros Hk. apply Forall_impl. intros f Hf.
  unfold is_single_replica. unfold rule_rank in Hf.
  destruct (String.eqb (issue f) "Single Replica"); [congruence | reflexivity].
Qed.

Lemma per_container_not_single (k : nat)
  (rule : json -> result (list finding)) (item : json) (fs : list finding) :
  In (k, rule) container_rules ->
  per_container rule item = Ok fs -> filter is_single_replica fs = [].
Proof.
  intros Hin H. apply filter_none.
  apply (@rank_not_single k).
  - unfold container_rules in Hin. cbn [In] in Hin.
    intuition (try congruence).
  - eapply per_container_rank; eassumption.
Qed.

(** The Single Replica findings of an issue list are those of rule 1. *)
Lemma single_replica_part (item kind : json) (fs : list finding) :
  issues item kind = Ok fs ->
  filter is_single_replica fs = check_replicas item kind.
Proof.
  intros H. destruct (issues_ok _ _ H) as (r2 & r3 & r4 & r5 & r6 &
    H2 & H3 & H4 & H5 & H6 & ->).
  rewrite !filter_app.
  rewrite (@per_container_not_single 1 privileged_c item r2)
    by (in_rules || assumption).
  rewrite (@per_container_not_single 2 image_c item r3)
    by (in_rules || assumption).
  rewrite (@per_container_not_single 3 liveness_c item r4)
    by (in_rules || assumption).
  rewrite (@per_container_not_single 4 readiness_c item r5)
    by (in_rules || assumption).
  rewrite (@per_container_not_single 5 resources_c item r6)
    by (in_rules || assumption).
  rewrite !app_nil_r.
  apply filter_all. unfold check_replicas.
  destruct (_ && _); repeat constructor.
Qed.

(* ------------------------------------------------------------------ *)
(** * The claims *)

(** C3. Resource findings are mutually exclusive per container. For a
    container whose name gives the detail text [d]: when
    [resources.requests] is absent (jq [null]) the resources rule yields
    exactly the one finding Missing Requests, CRITICAL, whatever
    [resources.limits] is; when requests are present and limits absent it
    yields exactly the one finding Missing Limits, CRITICAL; when both
    are present it yields no finding. *)
Theorem C3_resources_exclusive (c rq lm : json) (d : string) :
  path ["resources"; "requests"] c = Ok rq ->
  path ["resources"; "limits"] c = Ok lm ->
  (n <- field "name" c ;; str_plus "Container: " n) = Ok d ->
  resources_c c =
  Ok (if is_null rq
      then [mkFinding "CRITICAL" "Missing Requests" d
              "Define resources.requests"]
      else if is_null lm
           then [mkFinding "CRITICAL" "Missing Limits" d
                   "Define resources.limits"]
           else []).
Proof.
  intros Hrq Hlm Hd. inv_bind Hd.
  unfold resources_c. rewrite Hrq. cbn [bind].
  destruct (is_null rq).
  - rewrite E. cbn [bind]. rewrite Hd. reflexivity.
  - rewrite Hlm. cbn [bind]. destruct (is_null lm); [|reflexivity].
    rewrite E. cbn [bind]. rewrite Hd. reflexivity.
Qed.

Lemma C3_resources_exclusive_witness :
  resources_c (container_json app_latest) =
  Ok [mkFinding "CRITICAL" "Missing Requests" "Container: app"
        "Define resources.requests"].
Proof.
  apply (@C3_resources_exclusive (container_json app_latest) JNull JNull
           "Container: app"); reflexivity.
Defined.

(** C10. Any colon in the image string counts as a tag: a container whose
    image contains a colon and does not end with [:latest] gets no Using
    Latest Tag finding; [registry.local:5000/app] is such an image. *)
Theorem C10_colon_counts_as_tag (c : json) (image : string) :
  field "image" c = Ok (JStr image) ->
  str_contains ":" image = true ->
  ends_with ":latest" image = false ->
  image_c c = Ok [].
Proof.
  intros Hi Hc He. unfold image_c, latest_or_untagged.
  rewrite Hi. cbn [bind jq_endswith jq_contains].
  rewrite He, Hc. reflexivity.
Qed.

Lemma C10_colon_counts_as_tag_witness :
  image_c (container_json registry_app) = Ok [].
Proof.
  apply (@C10_colon_counts_as_tag (container_json registry_app)
           "registry.local:5000/app"); reflexivity.
Defined.

(** C6, at the input where the filter departs from it. The image
    [registry.local:5000/app] has no tag (its only colon is the port of
    the registry host), and the image rule yields no finding for it. The
    three images named by the claim behave as it says: [nginx:1.25] no
    finding, [nginx] and [nginx:latest] one finding, WARN. *)
Theorem C6_untagged_registry_port_image_missed :
  image_tag "registry.local:5000/app" = None /\
  untagged_or_latest "registry.local:5000/app" = true /\
  image_c (container_json registry_app) = Ok [] /\
  image_c (container_json
             (mkContainer "web" "nginx:1.25" false true true None None))
  = Ok [] /\
  image_c (container_json
             (mkContainer "web" "nginx" false true true None None))
  = Ok [mkFinding "WARN" "Using Latest Tag" "Container: web (nginx)"
          "Use specific version tag"] /\
  image_c (container_json
             (mkContainer "web" "nginx:latest" false true true None None))
  = Ok [mkFinding "WARN" "Using Latest Tag" "Container: web (nginx:latest)"
          "Use specific version tag"].
Proof.
  repeat split; reflexivity.
Qed.

(** C5. For an audited workload: a Deployment whose [spec.replicas] is
    absent or 1 has exactly one Single Replica finding, WARN; a workload
    whose replica count is another number has none; a workload of another
    kind (StatefulSet, DaemonSet) has none. *)
Theorem C5_single_replica (exclude_ns : string) (item ns kind name : json)
  (fs : list finding) :
  evaluate exclude_ns item = Ok (Some (ns, kind, name, fs)) ->
  (kind = JStr "Deployment" ->
   path ["spec"; "replicas"] item = Ok JNull \/
   path ["spec"; "replicas"] item = Ok (JNum 1) ->
   filter is_single_replica fs =
   [mkFinding "WARN" "Single Replica" "replicas=1"
      "Increase replicas > 1 for HA"]) /\
  (forall n : Z, n <> 1%Z ->
   path ["spec"; "replicas"] item = Ok (JNum n) ->
   filter is_single_replica fs = []) /\
  (kind <> JStr "Deployment" -> filter is_single_replica fs = []).
Proof.
  intros H. apply evaluate_ok in H. destruct H as (_ & _ & _ & _ & H).
  rewrite (single_replica_part _ _ H). unfold check_replicas.
  split; [|split].
  - intros -> [Hr|Hr]; rewrite Hr; reflexivity.
  - intros n Hn Hr. rewrite Hr. cbn [alternative truthy eq_num].
    destruct (Z.eqb_spec n 1); [contradiction|].
    rewrite andb_false_r. reflexivity.
  - intros Hk. destruct kind as [| | |s| |]; try reflexivity.
    cbn [eq_str]. destruct (String.eqb_spec s "Deployment"); [congruence|].
    reflexivity.
Qed.

Lemma C5_single_replica_witness :
  filter is_single_replica (single_replica :: app_findings)
  = [single_replica] /\
  filter is_single_replica app_findings = [] /\
  filter is_single_replica app_findings = [].
Proof.
  split; [|split].
  - destruct (@C5_single_replica "" (workload_json web) (JStr "prod")
                (JStr "Deployment") (JStr "web")
                (single_replica :: app_findings) eq_refl) as (H & _ & _).
    exact (H eq_refl (or_introl eq_refl)).
  - destruct (@C5_single_replica "" (workload_json web3) (JStr "prod")
                (JStr "Deployment") (JStr "web") app_findings eq_refl)
      as (_ & H & _).
    apply (H 3%Z); [discriminate | reflexivity].
  - destruct (@C5_single_replica "" (workload_json db) (JStr "prod")
                (JStr "StatefulSet") (JStr "db") app_findings eq_refl)
      as (_ & _ & H).
    apply H. discriminate.
Defined.

(** ** Order of the output *)

Lemma ranked_nil (k : nat) : ranked_from k [].
Proof. split; constructor. Qed.

Lemma ranked_app (k k' : nat) (l rest : list finding) :
  k <= k' ->
  Forall (fun f => rule_rank f = k) l ->
  ranked_from k' rest ->
  ranked_from k (l ++ rest).
Proof.
  intros Hk Hl (Hs & Hge). induction Hl as [|f l Hf _ IH].
  - split; [exact Hs|]. eapply Forall_impl; [|exact Hge]. cbv beta. lia.
  - destruct IH as (IHs & IHge). split.
    + cbn [app map]. constructor; [exact IHs|].
      rewrite Forall_map. eapply Forall_impl; [|exact IHge]. cbv beta. lia.
    + cbn [app]. constructor; [lia | exact IHge].
Qed.

Lemma issues_sorted (item kind : json) (fs : list finding) :
  issues item kind = Ok fs -> StronglySorted le (map rule_rank fs).
Proof.
  intros H. destruct (issues_ok _ _ H) as (r2 & r3 & r4 & r5 & r6 &
    H2 & H3 & H4 & H5 & H6 & ->).
  refine (proj1 (@ranked_app 0 1 _ _ _ (check_replicas_rank item kind) _));
    [lia|].
  refine (@ranked_app 1 2 _ _ _
            (@per_container_rank 1 privileged_c item r2 _ H2) _);
    [lia | in_rules |].
  refine (@ranked_app 2 3 _ _ _
            (@per_container_rank 2 image_c item r3 _ H3) _);
    [lia | in_rules |].
  refine (@ranked_app 3 4 _ _ _
            (@per_container_rank 3 liveness_c item r4 _ H4) _);
    [lia | in_rules |].
  refine (@ranked_app 4 5 _ _ _
            (@per_container_rank 4 readiness_c item r5 _ H5) _);
    [lia | in_rules |].
  rewrite <- (app_nil_r r6).
  refine (@ranked_app 5 5 _ _ _
            (@per_container_rank 5 resources_c item r6 _ H6) (ranked_nil 5));
    [lia | in_rules].
Qed.

(** The findings of one per-container rule, picked out of the issue list,
    are what that rule yields over the containers. *)
Lemma issues_rule_part (item kind : json) (fs : list finding) (k : nat)
  (rule : json -> result (list finding)) :
  issues item kind = Ok fs ->
  In (k, rule) container_rules ->
  per_container rule item
  = Ok (filter (fun f => Nat.eqb (rule_rank f) k) fs).
Proof.
  intros H Hin. destruct (issues_ok _ _ H) as (r2 & r3 & r4 & r5 & r6 &
    H2 & H3 & H4 & H5 & H6 & ->).
  rewrite !filter_app.
  rewrite (filter_rank k (check_replicas_rank item kind)).
  rewrite (filter_rank k (@per_container_rank 1 privileged_c item r2
                            ltac:(in_rules) H2)).
  rewrite (filter_rank k (@per_container_rank 2 image_c item r3
                            ltac:(in_rules) H3)).
  rewrite (filter_rank k (@per_container_rank 3 liveness_c item r4
                            ltac:(in_rules) H4)).
  rewrite (filter_rank k (@per_container_rank 4 readiness_c item r5
                            ltac:(in_rules) H5)).
  rewrite (filter_rank k (@per_container_rank 5 resources_c item r6
                            ltac:(in_rules) H6)).
  unfold container_rules in Hin. cbn [In] in Hin.
  destruct Hin as [E|[E|[E|[E|[E|[]]]]]]; injection E as <- <-;
    cbn [Nat.eqb app]; rewrite ?app_nil_r; assumption.
Qed.

(** The rows of one item: all of them, one per finding and in the order
    of the issue list, or none when a cell cannot be formatted. *)
Lemma emit_rows_spec (current_time : string) (ns kind name : json)
  (fs : list finding) :
  (snd (emit_rows current_time ns kind name fs) = true /\
   Forall2 (fun f l => tsv_row current_time ns kind name f = Ok l)
     fs (fst (emit_rows current_time ns kind name fs))) \/
  emit_rows current_time ns kind name fs = ([], false).
Proof.
  assert (Hfail : forall f, tsv_row current_time ns kind name f = Err ->
                  fs = [] \/ emit_rows current_time ns kind name fs = ([], false)).
  { intros f Hf. destruct fs as [|f0 fs0]; [now left | right].
    cbn [emit_rows]. unfold tsv_row in *.
    destruct (tsv_field ns); [|reflexivity].
    destruct (tsv_field kind); [|reflexivity].
    destruct (tsv_field name); [|reflexivity].
    discriminate Hf. }
  destruct (tsv_row current_time ns kind name
              (mkFinding "" "" "" "")) as [l0|] eqn:E0.
  - left. clear Hfail.
    assert (Hall : forall f, exists l, tsv_row current_time ns kind name f = Ok l).
    { intros f. unfold tsv_row in *.
      destruct (tsv_field ns); [|discriminate E0].
      destruct (tsv_field kind); [|discriminate E0].
      destruct (tsv_field name); [|discriminate E0].
      eexists; reflexivity. }
    induction fs as [|g gs IH]; [split; [reflexivity | constructor]|].
    cbn [emit_rows]. destruct (Hall g) as (l & Hl). rewrite Hl.
    destruct (emit_rows current_time ns kind name gs) as (ls, ok).
    cbn [fst snd] in *. destruct IH as (-> & IH).
    split; [reflexivity | constructor; assumption].
  - destruct (Hfail _ E0) as [-> | H]; [left | right; exact H].
    split; [reflexivity | constructor].
Qed.

(** The rows of a run are the rows of the items of a prefix of the input,
    in input order; the prefix is the whole input when the run ends well. *)
Lemma run_items_prefix (current_time exclude_ns : string) (items : list json) :
  exists n : nat,
    n <= List.length items /\
    fst (run_items current_time exclude_ns items)
    = flat_map (fun it => fst (audit_item current_time exclude_ns it))
        (firstn n items) /\
    (snd (run_items current_time exclude_ns items) = true ->
     n = List.length items).
Proof.
  induction items as [|item rest (n & Hn & Hrows & Hall)].
  - exists 0. repeat split; reflexivity || constructor.
  - cbn [run_items].
    destruct (audit_item current_time exclude_ns item) as (ls, ok) eqn:E.
    destruct ok.
    + destruct (run_items current_time exclude_ns rest) as (ls', ok').
      cbn [fst snd] in *. exists (S n). cbn [firstn flat_map List.length].
      rewrite E. cbn [fst]. split; [lia|]. split; [now rewrite Hrows|].
      intros H. now rewrite (Hall H).
    + exists 1. cbn [firstn flat_map List.length fst snd].
      rewrite E. cbn [fst]. split; [lia|]. split; [now rewrite app_nil_r|].
      discriminate.
Qed.

Lemma audit_item_all_or_nothing (current_time exclude_ns : string)
  (item : json) :
  snd (audit_item current_time exclude_ns item) = false ->
  audit_item current_time exclude_ns item = ([], false).
Proof.
  unfold audit_item.
  destruct (evaluate exclude_ns item) as [[[[[ns kind] name] fs]|]|];
    [|discriminate|reflexivity].
  destruct (emit_rows_spec current_time ns kind name fs) as [(H & _)|H].
  - rewrite H. discriminate.
  - intros _. exact H.
Qed.

Lemma run_items_app (current_time exclude_ns : string) (pre post : list json) :
  run_items current_time exclude_ns (pre ++ post)
  = if snd (run_items current_time exclude_ns pre)
    then (fst (run_items current_time exclude_ns pre)
          ++ fst (run_items current_time exclude_ns post),
          snd (run_items current_time exclude_ns post))
    else run_items current_time exclude_ns pre.
Proof.
  induction pre as [|p pre IH]; cbn [app run_items].
  - cbn [snd fst app]. now destruct (run_items current_time exclude_ns post).
  - destruct (audit_item current_time exclude_ns p) as (ls, ok).
    destruct ok; [|reflexivity].
    rewrite IH.
    destruct (run_items current_time exclude_ns pre) as (ls1, ok1).
    cbn [fst snd]. destruct ok1; [|reflexivity].
    now rewrite app_assoc.
Qed.

Lemma run_items_stops (current_time exclude_ns : string)
  (pre rest : list json) (bad : json) :
  snd (run_items current_time exclude_ns pre) = true ->
  snd (audit_item current_time exclude_ns bad) = false ->
  run_items current_time exclude_ns (pre ++ bad :: rest)
  = (fst (run_items current_time exclude_ns pre), false).
Proof.
  intros Hpre Hbad. rewrite run_items_app, Hpre.
  cbn [run_items]. rewrite (@audit_item_all_or_nothing current_time exclude_ns bad Hbad).
  cbn [fst snd]. now rewrite app_nil_r.
Qed.

(** When the three cells can be formatted, every finding gives its row. *)
Lemma emit_rows_cells (current_time : string) (ns kind name : json)
  (a b c : string) (fs : list finding) :
  tsv_field ns = Ok a -> tsv_field kind = Ok b -> tsv_field name = Ok c ->
  emit_rows current_time ns kind name fs
  = (map (row_text current_time a b c) fs, true).
Proof.
  intros Ha Hb Hc. induction fs as [|f fs IH]; cbn [emit_rows map];
    [reflexivity|].
  unfold tsv_row. rewrite Ha, Hb, Hc. cbn [bind]. rewrite IH. reflexivity.
Qed.

(** A run whose items all end well prints the rows of all of them. *)
Lemma run_items_all_ok (current_time exclude_ns : string) (items : list json) :
  Forall (fun it => snd (audit_item current_time exclude_ns it) = true) items ->
  run_items current_time exclude_ns items
  = (flat_map (fun it => fst (audit_item current_time exclude_ns it)) items,
     true).
Proof.
  induction 1 as [|item rest Hitem _ IH]; cbn [run_items flat_map];
    [reflexivity|].
  destruct (audit_item current_time exclude_ns item) as (ls, ok).
  cbn [fst snd] in *. subst ok. rewrite IH. reflexivity.
Qed.

(** C4. The output order. A run in which every item ends well prints the
    rows of all items, item after item in input order, and ends well; a
    run whose first failing item comes after [pre] prints the rows of
    [pre], in input order, and fails. An audited item whose namespace,
    kind and name can be formatted gives exactly one row per finding, in
    the order of its issue list, and ends well; an item that fails gives
    no row. The issue list is sorted by rule (Single Replica, Privileged
    Container, Using Latest Tag, Missing LivenessProbe, Missing
    ReadinessProbe, resources), and the findings of each per-container
    rule are the results of that rule on the containers, concatenated in
    container order. *)
Theorem C4_output_order (current_time exclude_ns : string) (items : list json) :
  (Forall (fun it => snd (audit_item current_time exclude_ns it) = true) items ->
   run_items current_time exclude_ns items
   = (flat_map (fun it => fst (audit_item current_time exclude_ns it)) items,
      true)) /\
  (forall (pre rest : list json) (bad : json),
     items = pre ++ bad :: rest ->
     Forall (fun it => snd (audit_item current_time exclude_ns it) = true) pre ->
     snd (audit_item current_time exclude_ns bad) = false ->
     run_items current_time exclude_ns items
     = (flat_map (fun it => fst (audit_item current_time exclude_ns it)) pre,
        false)) /\
  (forall item : json,
     snd (audit_item current_time exclude_ns item) = false ->
     audit_item current_time exclude_ns item = ([], false)) /\
  (forall (item ns kind name : json) (fs : list finding),
     evaluate exclude_ns item = Ok (Some (ns, kind, name, fs)) ->
     (forall a b c : string,
        tsv_field ns = Ok a -> tsv_field kind = Ok b -> tsv_field name = Ok c ->
        audit_item current_time exclude_ns item
        = (map (row_text current_time a b c) fs, true)) /\
     StronglySorted le (map rule_rank fs) /\
     exists cs : list json,
       containers item = Ok cs /\
       forall (k : nat) (rule : json -> result (list finding)),
         In (k, rule) container_rules ->
         exists per : list (list finding),
           Forall2 (fun c l => rule c = Ok l) cs per /\
           filter (fun f => Nat.eqb (rule_rank f) k) fs = List.concat per).
Proof.
  split; [apply (@run_items_all_ok current_time exclude_ns items)|].
  split; [|split].
  - intros pre rest bad -> Hpre Hbad.
    pose proof (@run_items_all_ok current_time exclude_ns pre Hpre) as Hrun.
    rewrite (@run_items_stops current_time exclude_ns pre rest bad)
      by (rewrite ?Hrun; reflexivity || assumption).
    rewrite Hrun. reflexivity.
  - intros item. apply audit_item_all_or_nothing.
  - intros item ns kind name fs Hev. split; [|split].
    + intros a b c Ha Hb Hc. unfold audit_item. rewrite Hev.
      apply emit_rows_cells; assumption.
    + apply evaluate_ok in Hev. destruct Hev as (_ & _ & _ & _ & H).
      exact (issues_sorted _ _ H).
    + apply evaluate_ok in Hev. destruct Hev as (_ & _ & _ & _ & H).
      pose proof (@issues_rule_part item kind fs 1 privileged_c H
                    ltac:(in_rules)) as H1.
      unfold per_container in H1. inv_bind H1. exists v. split; [exact E|].
      intros k rule Hin.
      pose proof (@issues_rule_part item kind fs k rule H Hin) as Hk.
      unfold per_container in Hk. rewrite E in Hk. cbn [bind] in Hk.
      destruct (collect_ok _ _ Hk) as (per & Hper & Heq).
      exists per. split; assumption.
Qed.

Lemma C4_output_order_witness :
  run_items "2026-01-01T00:00:00Z" "" [workload_json web; workload_json db]
  = (map (row_text "2026-01-01T00:00:00Z" "prod" "Deployment" "web")
       (single_replica :: app_findings)
     ++ map (row_text "2026-01-01T00:00:00Z" "prod" "StatefulSet" "db")
          app_findings, true) /\
  run_items "2026-01-01T00:00:00Z" ""
    [workload_json web; no_containers; workload_json db]
  = (map (row_text "2026-01-01T00:00:00Z" "prod" "Deployment" "web")
       (single_replica :: app_findings), false) /\
  audit_item "2026-01-01T00:00:00Z" "" no_containers = ([], false) /\
  audit_item "2026-01-01T00:00:00Z" "" (workload_json web)
  = (map (row_text "2026-01-01T00:00:00Z" "prod" "Deployment" "web")
       (single_replica :: app_findings), true) /\
  StronglySorted le (map rule_rank (single_replica :: app_findings)).
Proof.
  destruct (@C4_output_order "2026-01-01T00:00:00Z" ""
              [workload_json web; workload_json db]) as (A & _ & _ & B).
  destruct (@C4_output_order "2026-01-01T00:00:00Z" ""
              [workload_json web; no_containers; workload_json db])
    as (_ & A' & F & _).
  destruct (B (workload_json web) (JStr "prod") (JStr "Deployment")
              (JStr "web") (single_replica :: app_findings) eq_refl)
    as (Brows & Bsorted & _).
  split; [|split; [|split; [|split]]].
  - rewrite A; [reflexivity|]. repeat constructor.
  - rewrite (A' [workload_json web] [workload_json db] no_containers eq_refl);
      [reflexivity | repeat constructor | reflexivity].
  - apply F. reflexivity.
  - exact (Brows "prod" "Deployment" "web" eq_refl eq_refl eq_refl).
  - exact Bsorted.
Defined.

(** ** Namespace exclusion *)

Lemma has_run_nil (needle : list json) : has_run needle [] = false.
Proof. reflexivity. Qed.

Lemma is_excluded_empty (v : json) : is_excluded v "" = false.
Proof.
  unfold is_excluded, jq_split, index_found.
  destruct v as [| | | |[|x l]|]; reflexivity.
Qed.

Lemma has_run_single (ns : string) (hay : list string) :
  has_run [JStr ns] hay = true <-> In ns hay.
Proof.
  induction hay as [|h hay IH]; cbn [has_run run_at eq_str In].
  - split; [discriminate | contradiction].
  - rewrite orb_true_iff, IH. destruct hay as [|h' hay'];
      cbn [run_at]; rewrite andb_true_r, String.eqb_eq;
      split; intros [H|H]; auto.
Qed.

Lemma is_excluded_In (ns list : string) :
  is_excluded (JStr ns) list = true <-> In ns (jq_split comma list).
Proof. unfold is_excluded, index_found. apply has_run_single. Qed.

Lemma pieces_word (c : ascii) (w cur s : string) :
  count_char c w = 0 ->
  pieces c cur (w +++ s) = pieces c (cur +++ w) s.
Proof.
  revert cur. induction w as [|a w IH]; intros cur Hw.
  - cbn. f_equal. clear. induction cur; cbn; congruence.
  - cbn [count_char] in Hw. cbn [String.append pieces].
    destruct (Ascii.eqb a c); [discriminate Hw|].
    rewrite IH by exact Hw. f_equal.
    clear. induction cur; cbn; congruence.
Qed.

Lemma append_empty_r (s : string) : s +++ "" = s.
Proof. induction s; cbn; congruence. Qed.

Lemma pieces_join (names : list string) (x : string) :
  Forall (fun n => count_char comma n = 0) (x :: names) ->
  pieces comma "" (join "," (x :: names)) = x :: names.
Proof.
  revert x. induction names as [|y names IH]; intros x H.
  - cbn [join]. rewrite <- (append_empty_r x) at 1.
    rewrite pieces_word by (inversion H; assumption). reflexivity.
  - change (join "," (x :: y :: names))
      with (x +++ "," +++ join "," (y :: names)).
    rewrite pieces_word by (inversion H; assumption).
    cbn [String.append pieces]. change (Ascii.eqb "," comma) with true.
    cbv iota. cbn [String.append]. f_equal. apply IH. inversion H; assumption.
Qed.

(** A list of namespace names (not empty, without commas) is read back by
    [split(",")] from its comma-delimited form. *)
Lemma jq_split_join (names : list string) :
  Forall (fun n => n <> "" /\ count_char comma n = 0) names ->
  jq_split comma (join "," names) = names.
Proof.
  intros H. destruct names as [|x names]; [reflexivity|].
  assert (Hc : Forall (fun n => count_char comma n = 0) (x :: names)).
  { eapply Forall_impl; [|exact H]. cbv beta. tauto. }
  unfold jq_split. destruct (join "," (x :: names)) eqn:E.
  - exfalso. inversion H as [|? ? (Hx & _) _]; subst.
    destruct names; cbn [join] in E; destruct x; congruence || discriminate E.
  - rewrite <- E. apply pieces_join. exact Hc.
Qed.

Lemma audit_item_selected (current_time exclude_ns : string) (item : json) :
  selected exclude_ns item = true ->
  audit_item current_time exclude_ns item = audit_item current_time "" item.
Proof.
  unfold selected, audit_item, evaluate. intros H.
  destruct (path ["metadata"; "namespace"] item) as [ns|]; [|reflexivity].
  cbn [bind]. rewrite is_excluded_empty.
  destruct (is_excluded ns exclude_ns); [discriminate H | reflexivity].
Qed.

Lemma audit_item_dropped (current_time exclude_ns : string) (item : json) :
  selected exclude_ns item = false ->
  audit_item current_time exclude_ns item = ([], true).
Proof.
  unfold selected, audit_item, evaluate. intros H.
  destruct (path ["metadata"; "namespace"] item) as [ns|]; [|discriminate H].
  cbn [bind]. destruct (is_excluded ns exclude_ns); [reflexivity | discriminate H].
Qed.

Lemma run_items_filter (current_time exclude_ns : string) (items : list json) :
  run_items current_time exclude_ns items
  = run_items current_time "" (filter (selected exclude_ns) items).
Proof.
  induction items as [|item rest IH]; [reflexivity|].
  cbn [run_items filter]. destruct (selected exclude_ns item) eqn:E.
  - cbn [run_items]. rewrite (audit_item_selected _ _ _ E), IH. reflexivity.
  - rewrite (audit_item_dropped _ _ _ E), IH.
    destruct (run_items current_time "" (filter (selected exclude_ns) rest)).
    reflexivity.
Qed.

(** What [evaluate] gives for an item [select] lets through. *)
Lemma evaluate_selected (exclude_ns : string) (item ns kind name : json)
  (fs : list finding) :
  selected exclude_ns item = true ->
  path ["metadata"; "namespace"] item = Ok ns ->
  field "kind" item = Ok kind ->
  path ["metadata"; "name"] item = Ok name ->
  issues item kind = Ok fs ->
  evaluate exclude_ns item = Ok (Some (ns, kind, name, fs)).
Proof.
  unfold selected, evaluate. intros Hsel Hns Hk Hn Hfs.
  rewrite Hns in *. cbn [bind].
  destruct (is_excluded ns exclude_ns); [discriminate Hsel|].
  rewrite Hk, Hn. cbn [bind]. rewrite Hfs. reflexivity.
Qed.

Lemma evaluate_dropped (exclude_ns : string) (item : json) :
  selected exclude_ns item = false -> evaluate exclude_ns item = Ok None.
Proof.
  unfold selected, evaluate. intros H.
  destruct (path ["metadata"; "namespace"] item) as [ns|]; [|discriminate H].
  cbn [bind]. destruct (is_excluded ns exclude_ns); [reflexivity | discriminate H].
Qed.

(** C7. Namespace filtering. For an exclusion set given as a list of
    names (not empty, without commas) and passed in its comma-delimited
    form: an item whose namespace is a string is dropped exactly when
    that string is one of the names; a dropped item is not evaluated at
    all and adds no row and no error; an item that is not dropped is
    audited, its namespace, kind, name and issue list being those read
    from the item; a run with the exclusion set is the run without
    exclusions on the kept items, in their input order, wherever the
    dropped items stand; and with the empty exclusion string every item
    is kept and audited. *)
Theorem C7_namespace_filter (names : list string) :
  Forall (fun n => n <> "" /\ count_char comma n = 0) names ->
  (forall (item : json) (ns : string),
     path ["metadata"; "namespace"] item = Ok (JStr ns) ->
     (selected (join "," names) item = false <-> In ns names)) /\
  (forall item : json,
     selected (join "," names) item = false ->
     evaluate (join "," names) item = Ok None /\
     forall current_time : string,
       audit_item current_time (join "," names) item = ([], true)) /\
  (forall (item ns kind name : json) (fs : list finding),
     selected (join "," names) item = true ->
     path ["metadata"; "namespace"] item = Ok ns ->
     field "kind" item = Ok kind ->
     path ["metadata"; "name"] item = Ok name ->
     issues item kind = Ok fs ->
     evaluate (join "," names) item = Ok (Some (ns, kind, name, fs))) /\
  (forall (current_time : string) (items : list json),
     run_items current_time (join "," names) items
     = run_items current_time "" (filter (selected (join "," names)) items)) /\
  (forall (item ns kind name : json) (fs : list finding),
     path ["metadata"; "namespace"] item = Ok ns ->
     field "kind" item = Ok kind ->
     path ["metadata"; "name"] item = Ok name ->
     issues item kind = Ok fs ->
     selected "" item = true /\
     evaluate "" item = Ok (Some (ns, kind, name, fs))).
Proof.
  intros Hnames. split; [|split; [|split; [|split]]].
  - intros item ns Hns. unfold selected. rewrite Hns.
    rewrite negb_false_iff, is_excluded_In, (jq_split_join Hnames).
    reflexivity.
  - intros item Hsel. split; [apply evaluate_dropped; exact Hsel|].
    intros ct. apply audit_item_dropped. exact Hsel.
  - intros item ns kind name fs. apply evaluate_selected.
  - intros. apply run_items_filter.
  - intros item ns kind name fs Hns Hk Hn Hfs.
    assert (Hsel : selected "" item = true).
    { unfold selected. rewrite Hns. now rewrite is_excluded_empty. }
    split; [exact Hsel|]. apply evaluate_selected; assumption.
Qed.

Lemma C7_namespace_filter_witness :
  selected "prod" (workload_json web) = false /\
  audit_item "2026-01-01T00:00:00Z" "prod" (workload_json web) = ([], true) /\
  (selected "prod" (workload_json web_upper) = false -> False) /\
  evaluate "prod" (workload_json web_upper)
  = Ok (Some (JStr "Prod", JStr "Deployment", JStr "web", app_findings)) /\
  run_items "2026-01-01T00:00:00Z" "prod"
    [workload_json web; workload_json web_upper; workload_json db]
  = run_items "2026-01-01T00:00:00Z" "" [workload_json web_upper] /\
  evaluate "" (workload_json web)
  = Ok (Some (JStr "prod", JStr "Deployment", JStr "web",
              single_replica :: app_findings)).
Proof.
  destruct (@C7_namespace_filter ["prod"]) as (H1 & H2 & H3 & H4 & H5).
  { constructor; [split; [discriminate | reflexivity] | constructor]. }
  assert (Hweb : selected "prod" (workload_json web) = false).
  { apply (H1 (workload_json web) "prod" eq_refl). now left. }
  split; [exact Hweb|]. split; [|split; [|split; [|split]]].
  - destruct (H2 (workload_json web) Hweb) as (_ & H). apply H.
  - intros H. apply (H1 (workload_json web_upper) "Prod" eq_refl) in H.
    destruct H as [H|[]]. discriminate H.
  - apply (H3 (workload_json web_upper) (JStr "Prod") (JStr "Deployment")
             (JStr "web") app_findings); reflexivity.
  - exact (H4 "2026-01-01T00:00:00Z"
             [workload_json web; workload_json web_upper; workload_json db]).
  - destruct (H5 (workload_json web) (JStr "prod") (JStr "Deployment")
                (JStr "web") (single_replica :: app_findings)
                eq_refl eq_refl eq_refl eq_refl) as (_ & H).
    exact H.
Defined.

(** ** Well-formed manifests are audited without error *)

Lemma privileged_c_total (c : Container) :
  exists l, privileged_c (container_json c) = Ok l.
Proof.
  destruct c as [n i p lv rd rq lm].
  destruct p, lv, rd, rq, lm; eexists; reflexivity.
Qed.

Lemma image_c_total (c : Container) :
  exists l, image_c (container_json c) = Ok l.
Proof.
  destruct c as [n i p lv rd rq lm].
  unfold image_c, latest_or_untagged, container_json.
  cbn [c_name c_image app field assoc String.eqb Ascii.eqb Bool.eqb
       bind jq_endswith jq_contains].
  destruct (ends_with ":latest" i); cbn [bind str_plus].
  - eexists; reflexivity.
  - destruct (str_contains ":" i); cbn [negb]; eexists; reflexivity.
Qed.

Lemma liveness_c_total (c : Container) :
  exists l, liveness_c (container_json c) = Ok l.
Proof.
  destruct c as [n i p lv rd rq lm].
  destruct p, lv, rd, rq, lm; eexists; reflexivity.
Qed.

Lemma readiness_c_total (c : Container) :
  exists l, readiness_c (container_json c) = Ok l.
Proof.
  destruct c as [n i p lv rd rq lm].
  destruct p, lv, rd, rq, lm; eexists; reflexivity.
Qed.

Lemma resources_c_total (c : Container) :
  exists l, resources_c (container_json c) = Ok l.
Proof.
  destruct c as [n i p lv rd rq lm].
  destruct p, lv, rd, rq, lm; eexists; reflexivity.
Qed.

(** On a manifest the resources rule reads the two optional maps. *)
Lemma resources_c_manifest (c : Container) :
  resources_c (container_json c)
  = Ok (match c_requests c, c_limits c with
        | None, _ =>
            [mkFinding "CRITICAL" "Missing Requests"
               ("Container: " +++ c_name c) "Define resources.requests"]
        | Some _, None =>
            [mkFinding "CRITICAL" "Missing Limits"
               ("Container: " +++ c_name c) "Define resources.limits"]
        | Some _, Some _ => []
        end).
Proof.
  destruct c as [n i p lv rd rq lm].
  destruct p, lv, rd, rq, lm; reflexivity.
Qed.

(** On a manifest the image rule fires exactly when the image ends with
    [:latest] or holds no colon. *)
Lemma image_c_manifest (c : Container) :
  image_c (container_json c)
  = Ok (if ends_with ":latest" (c_image c)
           || negb (str_contains ":" (c_image c))
        then [mkFinding "WARN" "Using Latest Tag"
                (((("Container: " +++ c_name c) +++ " (") +++ c_image c) +++ ")")
                "Use specific version tag"]
        else []).
Proof.
  destruct c as [n i p lv rd rq lm].
  unfold image_c, latest_or_untagged, container_json.
  cbn [c_name c_image app field assoc String.eqb Ascii.eqb Bool.eqb
       bind jq_endswith jq_contains].
  destruct (ends_with ":latest" i); cbn [bind str_plus orb].
  - reflexivity.
  - destruct (str_contains ":" i); reflexivity.
Qed.

Lemma containers_raw (kind ns name : option string) (replicas : option Z)
  (cs : list json) :
  containers (raw_workload kind ns name replicas cs) = Ok cs.
Proof. destruct kind, replicas; reflexivity. Qed.

Lemma per_container_total (rule : json -> result (list finding))
  (kind ns name : option string) (replicas : option Z) (cs : list Container) :
  (forall c, exists l, rule (container_json c) = Ok l) ->
  exists fs,
    per_container rule
      (raw_workload kind ns name replicas (map container_json cs)) = Ok fs.
Proof.
  intros Hrule. unfold per_container. rewrite containers_raw. cbn [bind].
  apply collect_total. intros x Hx. apply in_map_iff in Hx.
  destruct Hx as (c & <- & _). apply Hrule.
Qed.

(** The issue list of a workload record with well-formed containers
    exists, whichever of kind, namespace and name the record has. *)
Lemma issues_total (kind ns name : option string) (replicas : option Z)
  (cs : list Container) (k : json) :
  exists fs,
    issues (raw_workload kind ns name replicas (map container_json cs)) k
    = Ok fs.
Proof.
  unfold issues.
  destruct (@per_container_total privileged_c kind ns name replicas cs privileged_c_total)
    as (r2 & ->).
  destruct (@per_container_total image_c kind ns name replicas cs image_c_total)
    as (r3 & ->).
  destruct (@per_container_total liveness_c kind ns name replicas cs liveness_c_total)
    as (r4 & ->).
  destruct (@per_container_total readiness_c kind ns name replicas cs readiness_c_total)
    as (r5 & ->).
  destruct (@per_container_total resources_c kind ns name replicas cs resources_c_total)
    as (r6 & ->).
  cbn [bind]. eexists; reflexivity.
Qed.

Lemma raw_workload_fields (kind ns name : option string)
  (replicas : option Z) (cs : list json) :
  path ["metadata"; "namespace"] (raw_workload kind ns name replicas cs)
  = Ok (opt_json ns) /\
  field "kind" (raw_workload kind ns name replicas cs) = Ok (opt_json kind) /\
  path ["metadata"; "name"] (raw_workload kind ns name replicas cs)
  = Ok (opt_json name).
Proof. destruct kind, ns, name; repeat split; reflexivity. Qed.

Lemma tsv_field_opt (o : option string) :
  exists a, tsv_field (opt_json o) = Ok a.
Proof. destruct o; eexists; reflexivity. Qed.

(** ** Records with missing fields, and errors *)

Lemma run_items_abort (current_time exclude_ns : string)
  (pre rest : list json) (item : json) :
  snd (audit_item current_time exclude_ns item) = false ->
  run_items current_time exclude_ns (pre ++ item :: rest)
  = run_items current_time exclude_ns (pre ++ [item]) /\
  snd (run_items current_time exclude_ns (pre ++ item :: rest)) = false.
Proof.
  intros Hfail. induction pre as [|p pre (IH1 & IH2)].
  - cbn [app run_items].
    destruct (audit_item current_time exclude_ns item) as (ls, ok).
    cbn [snd] in Hfail. subst ok. split; reflexivity.
  - cbn [app run_items].
    destruct (audit_item current_time exclude_ns p) as (ls, ok).
    destruct ok; [|split; reflexivity].
    rewrite IH1.
    destruct (run_items current_time exclude_ns (pre ++ item :: rest))
      as (ls1, ok1).
    destruct (run_items current_time exclude_ns (pre ++ [item])) as (ls2, ok2).
    cbn [snd] in *. injection IH1 as -> ->. split; [reflexivity | assumption].
Qed.

(** C9, as the script has it. The filter has no normalization step and
    prints no warning. A workload record that lacks its kind, namespace or
    name, with well-formed containers, is not skipped: unless its
    namespace is excluded it is audited, every finding gives a row (with
    an empty cell for the missing field), and the run goes on with the
    workloads after it. A workload on which jq raises an error ends the
    run: the workloads after it are not audited and jq fails. *)
Theorem C9_missing_fields_and_errors :
  (forall (current_time exclude_ns : string) (kind ns name : option string)
          (replicas : option Z) (cs : list Container) (rest : list json),
     selected exclude_ns
       (raw_workload kind ns name replicas (map container_json cs)) = true ->
     exists (fs : list finding) (rows : list string),
       issues (raw_workload kind ns name replicas (map container_json cs))
         (opt_json kind) = Ok fs /\
       Forall2 (fun f l => tsv_row current_time (opt_json ns) (opt_json kind)
                             (opt_json name) f = Ok l) fs rows /\
       run_items current_time exclude_ns
         (raw_workload kind ns name replicas (map container_json cs) :: rest)
       = (rows ++ fst (run_items current_time exclude_ns rest),
          snd (run_items current_time exclude_ns rest))) /\
  (forall (current_time exclude_ns : string) (pre rest : list json)
          (item : json),
     snd (audit_item current_time exclude_ns item) = false ->
     run_items current_time exclude_ns (pre ++ item :: rest)
     = run_items current_time exclude_ns (pre ++ [item]) /\
     snd (run_items current_time exclude_ns (pre ++ item :: rest)) = false).
Proof.
  split; [|intros; apply run_items_abort; assumption].
  intros ct ex kind ns name replicas cs rest Hsel.
  set (item := raw_workload kind ns name replicas (map container_json cs)) in *.
  destruct (issues_total kind ns name replicas cs (opt_json kind)) as (fs & Hfs).
  fold item in Hfs.
  destruct (raw_workload_fields kind ns name replicas (map container_json cs))
    as (Hns & Hkind & Hname). fold item in Hns, Hkind, Hname.
  assert (Hev : evaluate ex item
                = Ok (Some (opt_json ns, opt_json kind, opt_json name, fs))).
  { unfold evaluate. unfold selected in Hsel. rewrite Hns in *. cbn [bind].
    destruct (is_excluded (opt_json ns) ex); [discriminate Hsel|].
    rewrite Hkind, Hname. cbn [bind]. rewrite Hfs. reflexivity. }
  assert (Hrows : snd (emit_rows ct (opt_json ns) (opt_json kind)
                         (opt_json name) fs) = true /\
                  Forall2 (fun f l => tsv_row ct (opt_json ns) (opt_json kind)
                                        (opt_json name) f = Ok l) fs
                    (fst (emit_rows ct (opt_json ns) (opt_json kind)
                            (opt_json name) fs))).
  { destruct (emit_rows_spec ct (opt_json ns) (opt_json kind) (opt_json name) fs)
      as [H|H]; [exact H|].
    destruct fs as [|f fs']; [split; [reflexivity | constructor]|].
    exfalso. cbn [emit_rows] in H. unfold tsv_row in H.
    destruct (tsv_field_opt ns) as (a & Ha).
    destruct (tsv_field_opt kind) as (b & Hb).
    destruct (tsv_field_opt name) as (c & Hc).
    rewrite Ha, Hb, Hc in H. cbn [bind] in H.
    destruct (emit_rows ct (opt_json ns) (opt_json kind) (opt_json name) fs');
      discriminate H. }
  destruct Hrows as (Hok & Hrows).
  exists fs, (fst (emit_rows ct (opt_json ns) (opt_json kind) (opt_json name) fs)).
  split; [exact Hfs|]. split; [exact Hrows|].
  cbn [run_items]. unfold audit_item. rewrite Hev.
  destruct (emit_rows ct (opt_json ns) (opt_json kind) (opt_json name) fs)
    as (ls, ok). cbn [fst snd] in *. subst ok.
  destruct (run_items ct ex rest). reflexivity.
Qed.

Lemma C9_missing_fields_and_errors_witness :
  (exists rows,
     List.length rows = 5 /\
     run_items "2026-01-01T00:00:00Z" "" [nameless; workload_json db]
     = (rows ++ fst (run_items "2026-01-01T00:00:00Z" "" [workload_json db]),
        true)) /\
  run_items "2026-01-01T00:00:00Z" "" [no_containers; workload_json web]
  = ([], false).
Proof.
  destruct C9_missing_fields_and_errors as (H1 & H2). split.
  - destruct (H1 "2026-01-01T00:00:00Z" "" (Some "Deployment") (Some "prod")
                None None [app_latest] [workload_json db] eq_refl)
      as (fs & rows & Hfs & Hrows & Hrun).
    exists rows. split; [|exact Hrun].
    rewrite <- (Forall2_length Hrows).
    change (issues nameless (JStr "Deployment") = Ok fs) in Hfs.
    assert (E : Ok (single_replica :: app_findings) = Ok fs) by exact Hfs.
    injection E as <-. reflexivity.
  - destruct (H2 "2026-01-01T00:00:00Z" "" [] [workload_json web]
                no_containers eq_refl) as (H & _).
    exact H.
Defined.

(** C9, refuted as stated. The record without a name is not skipped: its
    five findings are printed. The record without containers ends the
    run: the workload after it, which alone gives five rows, gives none. *)
Lemma C9_counterexample :
  fst (jq_program "2026-01-01T00:00:00Z" "" (list_json [nameless])) <> [] /\
  List.length
    (fst (jq_program "2026-01-01T00:00:00Z" "" (list_json [nameless]))) = 5 /\
  jq_program "2026-01-01T00:00:00Z" ""
    (list_json [no_containers; workload_json web]) = ([], false) /\
  List.length
    (fst (jq_program "2026-01-01T00:00:00Z" "" (list_json [workload_json web])))
  = 5.
Proof. repeat split; try reflexivity. cbv. discriminate. Qed.

(** ** The end-to-end example *)

(** C1, refuted as stated: the run on the example with nothing excluded
    does not produce 6 findings. *)
Lemma C1_counterexample :
  List.length
    (fst (jq_program "2026-01-01T00:00:00Z" "" (list_json [workload_json web])))
  <> 6.
Proof. cbv. discriminate. Qed.

(** C1, as the script has it. For the one Deployment [web] in namespace
    [prod], replicas absent, one container [app] with image [app:latest],
    no probes and no resources, a run with the empty exclusion string
    produces exactly 5 findings, one row each: Single Replica (WARN,
    Stability), Using Latest Tag (WARN, Stability), Missing LivenessProbe
    (HIGH, Stability), Missing ReadinessProbe (HIGH, Stability) and Missing
    Requests (CRITICAL, FinOps), in this order; with the exclusion string
    [prod] it produces none. *)
Theorem C1_end_to_end_example (current_time : string) :
  issues (workload_json web) (JStr "Deployment")
  = Ok (single_replica :: app_findings) /\
  List.length (single_replica :: app_findings) = 5 /\
  map (fun f => (issue f, level f, classify (issue f)))
    (single_replica :: app_findings)
  = [("Single Replica", "WARN", Stability);
     ("Using Latest Tag", "WARN", Stability);
     ("Missing LivenessProbe", "HIGH", Stability);
     ("Missing ReadinessProbe", "HIGH", Stability);
     ("Missing Requests", "CRITICAL", FinOps)] /\
  jq_program current_time "" (list_json [workload_json web])
  = (map (row_text current_time "prod" "Deployment" "web")
       (single_replica :: app_findings), true) /\
  jq_program current_time "prod" (list_json [workload_json web]) = ([], true).
Proof. repeat split; reflexivity. Qed.

(** ** The CSV rows *)

(** C2, at the input where the script departs from it. The file starts
    with the header, which has seven columns. The container image
    [busybox,1.36] (a comma typed for the colon) has no colon, so it gets
    a Using Latest Tag finding whose detail holds the image; the row is
    written without any quote and reads as eight columns. *)
Theorem C2_comma_in_detail_not_quoted :
  csv_lines "2026-01-01T00:00:00Z" "" (list_json [workload_json typo])
  = [csv_header;
     "2026-01-01T00:00:00Z,prod,Deployment,web,WARN,Using Latest Tag - Container: app (busybox,1.36),Use specific version tag"] /\
  map (fun l => List.length (csv_columns false "" l))
    (csv_lines "2026-01-01T00:00:00Z" "" (list_json [workload_json typo]))
  = [7; 8] /\
  Forall (fun l => count_char dquote l = 0)
    (csv_lines "2026-01-01T00:00:00Z" "" (list_json [workload_json typo])).
Proof.
  split; [reflexivity|]. split; [reflexivity|].
  repeat constructor.
Qed.

(** ** One time stamp for the whole run *)

Lemma count_char_app (c : ascii) (x y : string) :
  count_char c (x +++ y) = count_char c x + count_char c y.
Proof. induction x as [|a x IH]; cbn; [reflexivity | rewrite IH; lia]. Qed.

Lemma tsv_escape_char_no_tab (a : ascii) :
  count_char tab (tsv_escape_char a) = 0.
Proof.
  unfold tsv_escape_char.
  destruct (Ascii.eqb a tab) eqn:E; [reflexivity|].
  repeat match goal with
         | |- context [if ?b then _ else _] => destruct b; [reflexivity|]
         end.
  cbn. rewrite E. reflexivity.
Qed.

Lemma tsv_escape_no_tab (s : string) : count_char tab (tsv_escape s) = 0.
Proof.
  induction s as [|a s IH]; cbn [tsv_escape]; [reflexivity|].
  now rewrite count_char_app, tsv_escape_char_no_tab, IH.
Qed.

Lemma tsv_escape_not_empty (s : string) : s <> "" -> tsv_escape s <> "".
Proof.
  destruct s as [|a s]; [congruence|]. intros _. cbn [tsv_escape].
  unfold tsv_escape_char.
  repeat match goal with
         | |- context [if ?b then _ else _] => destruct b; [discriminate|]
         end.
  discriminate.
Qed.

Lemma take_word_tab (w r : string) :
  count_char tab w = 0 ->
  take_word (w +++ String tab r) = (w, String tab r).
Proof.
  induction w as [|a w IH]; intros H.
  - reflexivity.
  - cbn [count_char] in H. cbn [String.append take_word].
    destruct (Ascii.eqb a tab); [discriminate H|].
    rewrite IH by exact H. reflexivity.
Qed.

Lemma drop_tabs_word (w : string) :
  w <> "" -> count_char tab w = 0 -> forall r, drop_tabs (w +++ r) = w +++ r.
Proof.
  destruct w as [|a w]; [congruence|]. intros _ H r.
  cbn [count_char] in H. cbn [String.append drop_tabs].
  destruct (Ascii.eqb a tab); [discriminate H | reflexivity].
Qed.

Lemma read_line_TIMESTAMP (line : string) :
  TIMESTAMP (read_line line) = fst (take_word (drop_tabs line)).
Proof.
  unfold read_line.
  repeat match goal with
         | |- context [take_word ?x] => destruct (take_word x)
         end.
  reflexivity.
Qed.

(** Every row starts with the escaped time stamp and a tab. *)
Lemma row_text_head (current_time a b c : string) (f : finding) :
  exists r, row_text current_time a b c f
            = tsv_escape current_time +++ String tab r.
Proof. unfold row_text. cbn [join String.append]. eexists; reflexivity. Qed.

Lemma emit_rows_head (current_time : string) (ns kind name : json)
  (fs : list finding) :
  Forall (fun l => exists r, l = tsv_escape current_time +++ String tab r)
    (fst (emit_rows current_time ns kind name fs)).
Proof.
  induction fs as [|f fs IH]; cbn [emit_rows]; [constructor|].
  destruct (tsv_row current_time ns kind name f) as [l|] eqn:E; [|constructor].
  destruct (emit_rows current_time ns kind name fs) as (ls, ok).
  cbn [fst] in *. constructor; [|exact IH].
  unfold tsv_row in E. do 3 inv_bind E. inv_ok E. apply row_text_head.
Qed.

Lemma run_items_head (current_time exclude_ns : string) (items : list json) :
  Forall (fun l => exists r, l = tsv_escape current_time +++ String tab r)
    (fst (run_items current_time exclude_ns items)).
Proof.
  induction items as [|item rest IH]; cbn [run_items]; [constructor|].
  assert (Hitem : Forall (fun l => exists r,
                            l = tsv_escape current_time +++ String tab r)
                    (fst (audit_item current_time exclude_ns item))).
  { unfold audit_item. destruct (evaluate exclude_ns item) as [[[[[ns kind] name] fs]|]|];
      [apply emit_rows_head | constructor | constructor]. }
  destruct (audit_item current_time exclude_ns item) as (ls, ok).
  cbn [fst] in Hitem. destruct ok; [|exact Hitem].
  destruct (run_items current_time exclude_ns rest) as (ls', ok').
  cbn [fst] in *. apply Forall_app. split; assumption.
Qed.

Lemma shared_timestamp (current_time exclude_ns : string) (input : json) :
  current_time <> "" ->
  Forall (fun l => TIMESTAMP (read_line l) = tsv_escape current_time)
    (fst (jq_program current_time exclude_ns input)).
Proof.
  intros Hne. unfold jq_program.
  destruct (its <- field "items" input ;; iter its) as [items|]; [|constructor].
  eapply Forall_impl; [|apply run_items_head]. cbv beta.
  intros l (r & ->). rewrite read_line_TIMESTAMP.
  rewrite drop_tabs_word
    by (apply tsv_escape_not_empty || apply tsv_escape_no_tab; assumption).
  rewrite take_word_tab by apply tsv_escape_no_tab. reflexivity.
Qed.

(** The shell default of [EXCLUDE_NS]: the five system namespaces stand in
    for an unset and for an empty variable, any other value is passed on
    to jq as it is. *)
Lemma EXCLUDE_NS_default (s : string) :
  EXCLUDE_NS None = default_exclude /\
  EXCLUDE_NS (Some "") = default_exclude /\
  (s <> "" -> EXCLUDE_NS (Some s) = s).
Proof.
  repeat split. intros Hs. destruct s; [congruence | reflexivity].
Qed.

(** C8. Two runs of the script on the same workload document, with the
    same [EXCLUDE_NS] and the same clock reading, leave the same exit
    status and the same bytes in the CSV file, whatever the file held
    before each run; the JSON projection of the two runs is the same
    document and so the same bytes under any serializer; and within a run
    every row carries the one clock reading. *)
Theorem C8_two_run_determinism (serialize : json -> string) (w1 w2 : world)
  (input : json) :
  kubectl_installed w1 = true -> jq_installed w1 = true ->
  cluster_reachable w1 = true ->
  kubectl_installed w2 = true -> jq_installed w2 = true ->
  cluster_reachable w2 = true ->
  kubectl_get w1 = Some input -> kubectl_get w2 = Some input ->
  env_EXCLUDE_NS w1 = env_EXCLUDE_NS w2 ->
  date_utc w1 = date_utc w2 ->
  script w1 = script w2 /\
  serialize (json_projection (date_utc w1) (EXCLUDE_NS (env_EXCLUDE_NS w1)) input)
  = serialize (json_projection (date_utc w2) (EXCLUDE_NS (env_EXCLUDE_NS w2)) input) /\
  (date_utc w1 <> "" ->
   Forall (fun l => TIMESTAMP (read_line l) = tsv_escape (date_utc w1))
     (fst (jq_program (date_utc w1) (EXCLUDE_NS (env_EXCLUDE_NS w1)) input))).
Proof.
  intros K1 J1 C1 K2 J2 C2 G1 G2 Henv Hdate.
  split; [|split].
  - unfold script. rewrite K1, J1, C1, K2, J2, C2, G1, G2, Henv, Hdate.
    reflexivity.
  - rewrite Henv, Hdate. reflexivity.
  - apply shared_timestamp.
Qed.

Lemma C8_two_run_determinism_witness :
  script first_run = script second_run /\
  Forall (fun l => TIMESTAMP (read_line l) = "2026-01-01T00:00:00Z")
    (fst (jq_program "2026-01-01T00:00:00Z" default_exclude
            (list_json [workload_json web]))).
Proof.
  destruct (@C8_two_run_determinism (fun _ => "") first_run second_run
              (list_json [workload_json web])
              eq_refl eq_refl eq_refl eq_refl eq_refl eq_refl
              eq_refl eq_refl eq_refl eq_refl) as (H1 & _ & H3).
  split; [exact H1|]. apply H3. discriminate.
Defined.

(* ------------------------------------------------------------------ *)
(** * Further properties of the filter *)

(** X1. The privileged rule fires on the JSON value [true] only: a
    container whose [securityContext.privileged] is [true] gets exactly
    one Privileged Container finding, HIGH; any other value there (absent,
    [false], the string ["true"], a number) gets none. *)
Theorem X1_privileged_only_on_true (c p : json) (d : string) :
  path ["securityContext"; "privileged"] c = Ok p ->
  (n <- field "name" c ;; str_plus "Container: " n) = Ok d ->
  privileged_c c =
  Ok (match p with
      | JBool true =>
          [mkFinding "HIGH" "Privileged Container" d "Avoid privileged mode"]
      | _ => []
      end).
Proof.
  intros Hp Hd. inv_bind Hd. unfold privileged_c. rewrite Hp. cbn [bind].
  destruct p as [|[|]| | | |]; cbn [eq_true]; try reflexivity.
  rewrite E. cbn [bind]. rewrite Hd. reflexivity.
Qed.

Lemma X1_privileged_only_on_true_witness :
  privileged_c
    (JObj [("name", JStr "app");
           ("securityContext", JObj [("privileged", JStr "true")])]) = Ok [] /\
  privileged_c (container_json worst)
  = Ok [mkFinding "HIGH" "Privileged Container" "Container: root"
          "Avoid privileged mode"].
Proof.
  split.
  - apply (@X1_privileged_only_on_true
             (JObj [("name", JStr "app");
                    ("securityContext", JObj [("privileged", JStr "true")])])
             (JStr "true") "Container: app"); reflexivity.
  - apply (@X1_privileged_only_on_true (container_json worst) (JBool true)
             "Container: root"); reflexivity.
Defined.

(** X2. The probe rules test the presence of the key, not its value: a
    container object gets a Missing LivenessProbe (Missing ReadinessProbe)
    finding exactly when it has no [livenessProbe] ([readinessProbe]) key;
    a key whose value is [null] silences the rule; and on a container that
    is not an object both rules raise a jq error. *)
Theorem X2_probe_rules_test_the_key (kvs : list (string * json)) (d : string) :
  (n <- field "name" (JObj kvs) ;; str_plus "Container: " n) = Ok d ->
  liveness_c (JObj kvs) =
  Ok (match assoc "livenessProbe" kvs with
      | Some _ => []
      | None => [mkFinding "HIGH" "Missing LivenessProbe" d "Add livenessProbe"]
      end) /\
  readiness_c (JObj kvs) =
  Ok (match assoc "readinessProbe" kvs with
      | Some _ => []
      | None => [mkFinding "HIGH" "Missing ReadinessProbe" d
                   "Add readinessProbe"]
      end) /\
  liveness_c (JObj (("livenessProbe", JNull) :: kvs)) = Ok [] /\
  readiness_c (JObj (("readinessProbe", JNull) :: kvs)) = Ok [] /\
  (forall v : json, (forall l, v <> JObj l) ->
                    liveness_c v = Err /\ readiness_c v = Err).
Proof.
  intros Hd. inv_bind Hd.
  split; [|split; [|split; [|split]]].
  - unfold liveness_c. cbn [has bind].
    destruct (assoc "livenessProbe" kvs); cbn [negb]; [reflexivity|].
    rewrite E. cbn [bind]. rewrite Hd. reflexivity.
  - unfold readiness_c. cbn [has bind].
    destruct (assoc "readinessProbe" kvs); cbn [negb]; [reflexivity|].
    rewrite E. cbn [bind]. rewrite Hd. reflexivity.
  - reflexivity.
  - reflexivity.
  - intros w Hw. destruct w; try (split; reflexivity).
    exfalso. eapply Hw. reflexivity.
Qed.

Lemma X2_probe_rules_test_the_key_witness :
  liveness_c (JObj [("name", JStr "app"); ("readinessProbe", probe)])
  = Ok [mkFinding "HIGH" "Missing LivenessProbe" "Container: app"
          "Add livenessProbe"] /\
  readiness_c (JObj [("name", JStr "app"); ("readinessProbe", probe)])
  = Ok [].
Proof.
  destruct (@X2_probe_rules_test_the_key
              [("name", JStr "app"); ("readinessProbe", probe)]
              "Container: app" eq_refl) as (H1 & H2 & _).
  split; [exact H1 | exact H2].
Defined.

Lemma str_plus_ok (s : string) (v : json) (d : string) :
  str_plus s v = Ok d -> exists t, d = s +++ t.
Proof.
  destruct v; cbn [str_plus]; intros H; try discriminate H; inv_ok H.
  - exists "". now rewrite append_empty_r.
  - eexists; reflexivity.
Qed.

Ltac one_catalogued :=
  constructor;
  [split; [unfold catalogue; cbn; auto 10 | right; eexists; reflexivity]
  | constructor].

Lemma container_rules_catalogued (k : nat)
  (rule : json -> result (list finding)) :
  In (k, rule) container_rules ->
  forall c l, rule c = Ok l -> Forall catalogued l.
Proof.
  unfold container_rules. cbn [In].
  intros [E|[E|[E|[E|[E|[]]]]]] c l H; injection E as <- <-.
  - unfold privileged_c in H. crack H; [|constructor].
    destruct (str_plus_ok _ _ E1) as (t & ->).
    one_catalogued.
  - unfold image_c in H. crack H; [|constructor].
    destruct (str_plus_ok _ _ E2) as (t & ->).
    destruct (str_plus_ok _ _ E4) as (t' & ->).
    constructor; [split; [unfold catalogue; cbn; auto 10 |] | constructor].
    right. cbn [detail String.append]. eexists; reflexivity.
  - unfold liveness_c in H. crack H; [|constructor].
    destruct (str_plus_ok _ _ E1) as (t & ->).
    one_catalogued.
  - unfold readiness_c in H. crack H; [|constructor].
    destruct (str_plus_ok _ _ E1) as (t & ->).
    one_catalogued.
  - unfold resources_c in H. crack H; [| |constructor].
    + destruct (str_plus_ok _ _ E1) as (t & ->).
      one_catalogued.
    + destruct (str_plus_ok _ _ E2) as (t & ->).
      one_catalogued.
Qed.

Lemma per_container_catalogued (k : nat)
  (rule : json -> result (list finding)) (item : json) (fs : list finding) :
  In (k, rule) container_rules ->
  per_container rule item = Ok fs -> Forall catalogued fs.
Proof.
  intros Hin H. unfold per_container in H. inv_bind H.
  eapply collect_Forall; [|exact H].
  apply (@container_rules_catalogued k); assumption.
Qed.

Lemma issues_catalogued (item kind : json) (fs : list finding) :
  issues item kind = Ok fs -> Forall catalogued fs.
Proof.
  intros H. destruct (issues_ok _ _ H) as (r2 & r3 & r4 & r5 & r6 &
    H2 & H3 & H4 & H5 & H6 & ->).
  repeat (apply Forall_app; split).
  - unfold check_replicas. destruct (_ && _); [|constructor].
    constructor; [split; [unfold catalogue; cbn; auto 10 | left; reflexivity]
                 | constructor].
  - apply (@per_container_catalogued 1 privileged_c item); [in_rules | exact H2].
  - apply (@per_container_catalogued 2 image_c item); [in_rules | exact H3].
  - apply (@per_container_catalogued 3 liveness_c item); [in_rules | exact H4].
  - apply (@per_container_catalogued 4 readiness_c item); [in_rules | exact H5].
  - apply (@per_container_catalogued 5 resources_c item); [in_rules | exact H6].
Qed.

(** X3. Whatever the item, every finding of a successful evaluation has
    one of the seven (level, issue, recommendation) triples of the filter,
    so its level is WARN, HIGH or CRITICAL and is fixed by its issue; its
    detail is [replicas=1] or starts with [Container: ]. *)
Theorem X3_findings_are_catalogued (item kind : json) (fs : list finding) :
  issues item kind = Ok fs ->
  Forall (fun f =>
            In (level f, issue f, rec f) catalogue /\
            (detail f = "replicas=1" \/
             exists t, detail f = "Container: " +++ t)) fs.
Proof. apply issues_catalogued. Qed.

Lemma X3_findings_are_catalogued_witness :
  Forall (fun f =>
            In (level f, issue f, rec f) catalogue /\
            (detail f = "replicas=1" \/
             exists t, detail f = "Container: " +++ t))
    (single_replica :: app_findings).
Proof.
  exact (@X3_findings_are_catalogued (workload_json web) (JStr "Deployment")
           (single_replica :: app_findings) eq_refl).
Defined.

Lemma collect_length {A B : Type} (f : A -> result (list B)) (xs : list A)
  (ys : list B) :
  (forall x l, f x = Ok l -> List.length l <= 1) ->
  collect f xs = Ok ys -> List.length ys <= List.length xs.
Proof.
  intros Hf. revert ys. induction xs as [|x xs IH]; cbn [collect]; intros ys H.
  - inv_ok H. cbn. lia.
  - inv_bind H. inv_bind H. inv_ok H. rewrite length_app. cbn [List.length].
    specialize (Hf _ _ E). specialize (IH _ E0). lia.
Qed.

Lemma container_rules_at_most_one (k : nat)
  (rule : json -> result (list finding)) :
  In (k, rule) container_rules ->
  forall c l, rule c = Ok l -> List.length l <= 1.
Proof.
  unfold container_rules. cbn [In].
  intros [E|[E|[E|[E|[E|[]]]]]] c l H; injection E as <- <-.
  - destruct (privileged_c_shape _ H) as [->|(d & ->)]; cbn; lia.
  - destruct (image_c_shape _ H) as [->|(d & ->)]; cbn; lia.
  - destruct (liveness_c_shape _ H) as [->|(d & ->)]; cbn; lia.
  - destruct (readiness_c_shape _ H) as [->|(d & ->)]; cbn; lia.
  - destruct (resources_c_shape _ H) as [->|[(d & ->)|(d & ->)]]; cbn; lia.
Qed.

Lemma per_container_length (k : nat) (rule : json -> result (list finding))
  (item : json) (cs : list json) (fs : list finding) :
  In (k, rule) container_rules ->
  containers item = Ok cs ->
  per_container rule item = Ok fs -> List.length fs <= List.length cs.
Proof.
  intros Hin Hcs H. unfold per_container in H. rewrite Hcs in H.
  cbn [bind] in H. eapply collect_length; [|exact H].
  apply (@container_rules_at_most_one k); assumption.
Qed.

(** X4. A workload with [n] containers has at most [1 + 5 * n] findings:
    one for the replicas, and one per container from each of the five
    per-container rules (the two resource findings never come together).
    A privileged Deployment container on an untagged image without probes
    or resources reaches the bound. *)
Theorem X4_at_most_five_per_container (item kind : json) (cs : list json)
  (fs : list finding) :
  containers item = Ok cs ->
  issues item kind = Ok fs ->
  List.length fs <= 1 + 5 * List.length cs.
Proof.
  intros Hcs H. destruct (issues_ok _ _ H) as (r2 & r3 & r4 & r5 & r6 &
    H2 & H3 & H4 & H5 & H6 & ->).
  rewrite !length_app.
  pose proof (@per_container_length 1 privileged_c item cs r2
                ltac:(in_rules) Hcs H2).
  pose proof (@per_container_length 2 image_c item cs r3
                ltac:(in_rules) Hcs H3).
  pose proof (@per_container_length 3 liveness_c item cs r4
                ltac:(in_rules) Hcs H4).
  pose proof (@per_container_length 4 readiness_c item cs r5
                ltac:(in_rules) Hcs H5).
  pose proof (@per_container_length 5 resources_c item cs r6
                ltac:(in_rules) Hcs H6).
  assert (List.length (check_replicas item kind) <= 1).
  { unfold check_replicas. destruct (_ && _); cbn; lia. }
  lia.
Qed.

Lemma X4_at_most_five_per_container_witness :
  exists fs,
    issues (workload_json risky) (JStr "Deployment") = Ok fs /\
    List.length fs = 6 /\ List.length fs <= 1 + 5 * 1.
Proof.
  eexists. split; [reflexivity|]. split; [reflexivity|].
  exact (@X4_at_most_five_per_container (workload_json risky)
           (JStr "Deployment") [container_json worst] _ eq_refl eq_refl).
Defined.

(** ** Manifests, rule by rule *)

Lemma collect_map_ok {A B C : Type} (enc : A -> C)
  (f : C -> result (list B)) (g : A -> list B) :
  (forall a, f (enc a) = Ok (g a)) ->
  forall xs, collect f (map enc xs) = Ok (flat_map g xs).
Proof.
  intros H xs. induction xs as [|x xs IH]; cbn [map collect flat_map].
  - reflexivity.
  - rewrite H, IH. reflexivity.
Qed.

Lemma privileged_c_manifest (c : Container) :
  privileged_c (container_json c) = Ok (privileged_m c).
Proof.
  destruct c as [n i p lv rd rq lm]. destruct p, lv, rd, rq, lm; reflexivity.
Qed.

Lemma liveness_c_manifest (c : Container) :
  liveness_c (container_json c) = Ok (liveness_m c).
Proof.
  destruct c as [n i p lv rd rq lm]. destruct p, lv, rd, rq, lm; reflexivity.
Qed.

Lemma readiness_c_manifest (c : Container) :
  readiness_c (container_json c) = Ok (readiness_m c).
Proof.
  destruct c as [n i p lv rd rq lm]. destruct p, lv, rd, rq, lm; reflexivity.
Qed.

Lemma check_replicas_manifest (w : Workload) :
  check_replicas (workload_json w) (JStr (kind_name (w_kind w)))
  = if lone w then [single_replica] else [].
Proof.
  destruct w as [k ns nm r cs]. unfold lone. cbn [w_kind w_replicas].
  destruct k, r as [n|]; reflexivity.
Qed.

Lemma per_container_manifest (rule : json -> result (list finding))
  (g : Container -> list finding) (w : Workload) :
  (forall c, rule (container_json c) = Ok (g c)) ->
  per_container rule (workload_json w) = Ok (flat_map g (w_containers w)).
Proof.
  intros H. unfold per_container, workload_json. rewrite containers_raw.
  cbn [bind]. apply collect_map_ok. exact H.
Qed.

(** On a workload manifest the filter computes [manifest_issues]. *)
Lemma issues_manifest (w : Workload) :
  issues (workload_json w) (JStr (kind_name (w_kind w)))
  = Ok (manifest_issues w).
Proof.
  unfold issues, manifest_issues.
  rewrite (@per_container_manifest privileged_c privileged_m w privileged_c_manifest).
  rewrite (@per_container_manifest image_c image_m w image_c_manifest).
  rewrite (@per_container_manifest liveness_c liveness_m w liveness_c_manifest).
  rewrite (@per_container_manifest readiness_c readiness_m w readiness_c_manifest).
  rewrite (@per_container_manifest resources_c resources_m w resources_c_manifest).
  cbn [bind]. rewrite check_replicas_manifest. reflexivity.
Qed.

Lemma flat_map_nil {A B : Type} (g : A -> list B) (l : list A) :
  flat_map g l = [] <-> Forall (fun a => g a = []) l.
Proof.
  induction l as [|a l IH]; cbn [flat_map].
  - split; [constructor | reflexivity].
  - split.
    + intros H. apply app_eq_nil in H. destruct H as (Ha & Hl).
      constructor; [exact Ha | now apply IH].
    + intros H. inversion H as [|? ? Ha Hl]; subst.
      rewrite Ha. now apply IH.
Qed.

Lemma clean_spec (c : Container) :
  clean c = true <->
  privileged_m c = [] /\ image_m c = [] /\ liveness_m c = [] /\
  readiness_m c = [] /\ resources_m c = [].
Proof.
  destruct c as [n i p lv rd rq lm].
  unfold clean, privileged_m, image_m, liveness_m, readiness_m, resources_m.
  cbn [c_name c_image c_privileged c_liveness c_readiness c_requests c_limits].
  destruct (ends_with ":latest" i || negb (str_contains ":" i));
    destruct p, lv, rd, rq, lm; cbn;
    split; try discriminate; try (intros (? & ? & ? & ? & ?); discriminate);
    repeat split.
Qed.

(** X5. A workload manifest yields no finding exactly when the replicas
    rule does not fire on it (it is not a Deployment, or its replica count
    is a number other than 1) and every container is clean: not
    privileged, image with a colon and not ending in [:latest], both
    probes, requests and limits. Such a workload adds no row to the
    report (there is no PASS row). *)
Theorem X5_no_findings_iff_clean (w : Workload) :
  (issues (workload_json w) (JStr (kind_name (w_kind w))) = Ok [] <->
   lone w = false /\ forallb clean (w_containers w) = true) /\
  (lone w = false -> forallb clean (w_containers w) = true ->
   forall current_time exclude_ns : string,
     audit_item current_time exclude_ns (workload_json w) = ([], true)).
Proof.
  assert (Hiff : manifest_issues w = [] <->
                 lone w = false /\ forallb clean (w_containers w) = true).
  { unfold manifest_issues. rewrite forallb_forall.
    split.
    - intros H. repeat (apply app_eq_nil in H; destruct H as (? & H)).
      rewrite flat_map_nil, Forall_forall in *.
      split; [destruct (lone w); [discriminate | reflexivity]|].
      intros c Hc. apply clean_spec. repeat split; auto.
    - intros (Hl & Hc). rewrite Hl. cbn [app].
      assert (Hc' : forall c, In c (w_containers w) ->
                privileged_m c = [] /\ image_m c = [] /\ liveness_m c = [] /\
                readiness_m c = [] /\ resources_m c = []).
      { intros c Hin. apply clean_spec. auto. }
      assert (Hg : forall g : Container -> list finding,
                (forall c, In c (w_containers w) -> g c = []) ->
                flat_map g (w_containers w) = []).
      { intros g Hg. apply flat_map_nil, Forall_forall. exact Hg. }
      rewrite (Hg privileged_m), (Hg image_m), (Hg liveness_m),
        (Hg readiness_m), (Hg resources_m);
        [reflexivity | | | | |]; intros c Hin; apply (Hc' c Hin). }
  split.
  - rewrite issues_manifest. rewrite <- Hiff.
    split; [intros H; now inv_ok H | intros ->; reflexivity].
  - intros Hl Hc ct ex.
    assert (He : manifest_issues w = []) by (apply Hiff; split; assumption).
    unfold audit_item, evaluate.
    destruct (raw_workload_fields (Some (kind_name (w_kind w)))
                (Some (w_namespace w)) (Some (w_name w)) (w_replicas w)
                (map container_json (w_containers w))) as (Hns & Hk & Hn).
    fold (workload_json w) in Hns, Hk, Hn. rewrite Hns. cbn [bind].
    destruct (is_excluded _ _); [reflexivity|].
    rewrite Hk, Hn. cbn [bind opt_json]. rewrite issues_manifest, He.
    reflexivity.
Qed.

Lemma X5_no_findings_iff_clean_witness :
  audit_item "2026-01-01T00:00:00Z" ""
    (workload_json (mkWorkload StatefulSet "prod" "db" (Some 1%Z)
                      [registry_app])) = ([], true).
Proof.
  destruct (X5_no_findings_iff_clean
              (mkWorkload StatefulSet "prod" "db" (Some 1%Z) [registry_app]))
    as (_ & H).
  apply H; reflexivity.
Defined.

(* ------------------------------------------------------------------ *)
(** * Further properties of the rows *)

(** ** What the cells of a row can hold *)

Lemma string_of_uint_plain (c : ascii) (d : Decimal.uint) :
  c = tab \/ c = LF \/ c = CR ->
  count_char c (NilEmpty.string_of_uint d) = 0.
Proof.
  intros [-> | [-> | ->]]; induction d; cbn; assumption || reflexivity.
Qed.

Lemma string_of_int_plain (c : ascii) (n : Z) :
  c = tab \/ c = LF \/ c = CR ->
  count_char c (NilZero.string_of_int (Z.to_int n)) = 0.
Proof.
  intros Hc. unfold NilZero.string_of_int, NilZero.string_of_uint.
  destruct (Z.to_int n) as [d|d].
  - destruct d; try apply (string_of_uint_plain _ Hc).
    destruct Hc as [-> | [-> | ->]]; reflexivity.
  - cbn [count_char].
    replace (Ascii.eqb "-" c) with false
      by (destruct Hc as [-> | [-> | ->]]; reflexivity).
    destruct d; try apply (string_of_uint_plain _ Hc).
    destruct Hc as [-> | [-> | ->]]; reflexivity.
Qed.

Lemma tsv_escape_char_plain (c a : ascii) :
  c = tab \/ c = LF \/ c = CR ->
  count_char c (tsv_escape_char a) = 0.
Proof.
  intros Hc. unfold tsv_escape_char.
  destruct (Ascii.eqb a tab) eqn:Et;
    [destruct Hc as [-> | [-> | ->]]; reflexivity|].
  destruct (Ascii.eqb a "013") eqn:Er;
    [destruct Hc as [-> | [-> | ->]]; reflexivity|].
  destruct (Ascii.eqb a "010") eqn:El;
    [destruct Hc as [-> | [-> | ->]]; reflexivity|].
  destruct (Ascii.eqb a "\") eqn:Eb;
    [destruct Hc as [-> | [-> | ->]]; reflexivity|].
  cbn [count_char].
  destruct Hc as [-> | [-> | ->]]; unfold tab, LF, CR in *;
    rewrite ?Et, ?Er, ?El; reflexivity.
Qed.

Lemma tsv_escape_plain (c : ascii) (s : string) :
  c = tab \/ c = LF \/ c = CR -> count_char c (tsv_escape s) = 0.
Proof.
  intros Hc. induction s as [|a s IH]; cbn [tsv_escape]; [reflexivity|].
  now rewrite count_char_app, (tsv_escape_char_plain _ Hc), IH.
Qed.

Lemma tsv_field_plain (c : ascii) (v : json) (a : string) :
  c = tab \/ c = LF \/ c = CR ->
  tsv_field v = Ok a -> count_char c a = 0.
Proof.
  intros Hc H. destruct v as [|[|]|n|s| |]; cbn [tsv_field] in H;
    try discriminate H; inv_ok H.
  - reflexivity.
  - destruct Hc as [-> | [-> | ->]]; reflexivity.
  - destruct Hc as [-> | [-> | ->]]; reflexivity.
  - apply string_of_int_plain; assumption.
  - apply tsv_escape_plain; assumption.
Qed.

(** A property of every row text holds of every row a run prints. *)
Lemma emit_rows_Forall (P : string -> Prop) (current_time : string)
  (ns kind name : json) (fs : list finding) :
  (forall f l, tsv_row current_time ns kind name f = Ok l -> P l) ->
  Forall P (fst (emit_rows current_time ns kind name fs)).
Proof.
  intros HP. induction fs as [|f fs IH]; cbn [emit_rows]; [constructor|].
  destruct (tsv_row current_time ns kind name f) as [l|] eqn:E; [|constructor].
  destruct (emit_rows current_time ns kind name fs) as (ls, ok).
  cbn [fst] in *. constructor; [eapply HP; eassumption | exact IH].
Qed.

Lemma run_items_Forall (P : string -> Prop) (current_time exclude_ns : string)
  (items : list json) :
  (forall ns kind name f l, tsv_row current_time ns kind name f = Ok l -> P l) ->
  Forall P (fst (run_items current_time exclude_ns items)).
Proof.
  intros HP. induction items as [|item rest IH]; cbn [run_items]; [constructor|].
  assert (Hitem : Forall P (fst (audit_item current_time exclude_ns item))).
  { unfold audit_item.
    destruct (evaluate exclude_ns item) as [[[[[ns kind] name] fs]|]|];
      [|constructor|constructor].
    apply emit_rows_Forall. intros f l. apply HP. }
  destruct (audit_item current_time exclude_ns item) as (ls, ok).
  cbn [fst] in Hitem. destruct ok; [|exact Hitem].
  destruct (run_items current_time exclude_ns rest) as (ls', ok').
  cbn [fst] in *. apply Forall_app. split; assumption.
Qed.

Lemma jq_program_Forall (P : string -> Prop) (current_time exclude_ns : string)
  (input : json) :
  (forall ns kind name f l, tsv_row current_time ns kind name f = Ok l -> P l) ->
  Forall P (fst (jq_program current_time exclude_ns input)).
Proof.
  intros HP. unfold jq_program.
  destruct (its <- field "items" input ;; iter its) as [items|]; [|constructor].
  apply run_items_Forall. exact HP.
Qed.

(** X6. Every row jq prints is one line of eight cells: it holds exactly
    seven tabs and no line feed or carriage return, whatever strings the
    workloads carry (tabs and line breaks inside a value are escaped, so
    no value can add a cell or a line to the report). *)
Theorem X6_rows_have_eight_cells (current_time exclude_ns : string)
  (input : json) :
  Forall (fun l => count_char tab l = 7 /\
                   count_char LF l = 0 /\ count_char CR l = 0)
    (fst (jq_program current_time exclude_ns input)).
Proof.
  apply jq_program_Forall. intros ns kind name f l H.
  unfold tsv_row in H. do 3 inv_bind H. inv_ok H.
  unfold row_text. cbn [join]. rewrite !count_char_app.
  repeat split.
  - rewrite !(tsv_escape_plain (c:=tab)) by auto.
    rewrite (tsv_field_plain (c:=tab) _ (or_introl eq_refl) E).
    rewrite (tsv_field_plain (c:=tab) _ (or_introl eq_refl) E0).
    rewrite (tsv_field_plain (c:=tab) _ (or_introl eq_refl) E1).
    reflexivity.
  - rewrite !(tsv_escape_plain (c:=LF)) by auto.
    rewrite (tsv_field_plain (c:=LF) _ (or_intror (or_introl eq_refl)) E).
    rewrite (tsv_field_plain (c:=LF) _ (or_intror (or_introl eq_refl)) E0).
    rewrite (tsv_field_plain (c:=LF) _ (or_intror (or_introl eq_refl)) E1).
    reflexivity.
  - rewrite !(tsv_escape_plain (c:=CR)) by auto.
    rewrite (tsv_field_plain (c:=CR) _ (or_intror (or_intror eq_refl)) E).
    rewrite (tsv_field_plain (c:=CR) _ (or_intror (or_intror eq_refl)) E0).
    rewrite (tsv_field_plain (c:=CR) _ (or_intror (or_intror eq_refl)) E1).
    reflexivity.
Qed.

(** ** What [read] makes of a row *)

Lemma take_word_end (w : string) :
  count_char tab w = 0 -> take_word w = (w, "").
Proof.
  induction w as [|a w IH]; intros H; [reflexivity|].
  cbn [count_char] in H. cbn [take_word].
  destruct (Ascii.eqb a tab); [discriminate H|].
  rewrite IH by exact H. reflexivity.
Qed.

Lemma drop_tabs_plain (w : string) :
  count_char tab w = 0 -> drop_tabs w = w.
Proof.
  destruct w as [|a w]; intros H; [reflexivity|].
  cbn [count_char] in H. cbn [drop_tabs].
  destruct (Ascii.eqb a tab); [discriminate H | reflexivity].
Qed.

Lemma drop_tabs_l_plain (l : list ascii) :
  Forall (fun a => Ascii.eqb a tab = false) l -> drop_tabs_l l = l.
Proof.
  destruct 1 as [|a l Ha _]; [reflexivity|].
  cbn [drop_tabs_l]. now rewrite Ha.
Qed.

Lemma plain_chars (w : string) :
  count_char tab w = 0 ->
  Forall (fun a => Ascii.eqb a tab = false) (list_ascii_of_string w).
Proof.
  induction w as [|a w IH]; intros H; cbn [list_ascii_of_string];
    [constructor|].
  cbn [count_char] in H. destruct (Ascii.eqb a tab) eqn:E; [discriminate H|].
  constructor; [exact E | apply IH; exact H].
Qed.

Lemma drop_trailing_tabs_plain (w : string) :
  count_char tab w = 0 -> drop_trailing_tabs w = w.
Proof.
  intros H. unfold drop_trailing_tabs.
  rewrite drop_tabs_l_plain.
  - rewrite rev_involutive. apply string_of_list_ascii_of_string.
  - apply Forall_rev. apply plain_chars. exact H.
Qed.

Lemma join_tab_cons (c c' : string) (rest : list string) :
  join (String tab "") (c :: c' :: rest)
  = c +++ String tab (join (String tab "") (c' :: rest)).
Proof. reflexivity. Qed.

(** One [read] step on the cells that are left: the next variable takes
    the first cell that is not empty, and the line goes on with the cells
    after it. *)
Lemma read_step (cells : list string) :
  Forall (fun c => count_char tab c = 0) cells ->
  exists r,
    take_word (drop_tabs (join (String tab "") cells))
    = (hd "" (filter nonempty cells), r) /\
    drop_tabs r = drop_tabs (join (String tab "") (after_first cells)).
Proof.
  induction 1 as [|c rest Hc Hrest IH].
  - exists "". split; reflexivity.
  - destruct c as [|a c0].
    + destruct rest as [|c' rest'].
      * exists "". split; reflexivity.
      * rewrite join_tab_cons. cbn [String.append drop_tabs filter nonempty after_first].
        change (Ascii.eqb tab tab) with true. cbv iota. exact IH.
    + cbn [filter nonempty after_first hd].
      destruct rest as [|c' rest'].
      * cbn [join]. rewrite (drop_tabs_plain _ Hc), (take_word_end _ Hc).
        exists "". split; reflexivity.
      * rewrite join_tab_cons.
        rewrite drop_tabs_word by (discriminate || exact Hc).
        rewrite take_word_tab by exact Hc.
        eexists. split; [reflexivity|].
        cbn [drop_tabs]. change (Ascii.eqb tab tab) with true. reflexivity.
Qed.

Lemma after_first_plain (cells : list string) :
  Forall (fun c => count_char tab c = 0) cells ->
  Forall (fun c => count_char tab c = 0) (after_first cells).
Proof.
  induction 1 as [|c rest Hc Hrest IH]; cbn [after_first]; [constructor|].
  destruct (nonempty c); assumption.
Qed.

Lemma after_first_length (cells : list string) :
  List.length (after_first cells) <= Nat.pred (List.length cells).
Proof.
  induction cells as [|c rest IH]; cbn [after_first List.length]; [lia|].
  destruct (nonempty c); cbn [Nat.pred]; [lia|].
  destruct rest; cbn [List.length Nat.pred] in *; lia.
Qed.

Lemma filter_after_first (cells : list string) :
  filter nonempty (after_first cells) = tl (filter nonempty cells).
Proof.
  induction cells as [|c rest IH]; cbn [after_first filter]; [reflexivity|].
  destruct (nonempty c); [reflexivity | exact IH].
Qed.

Lemma read_last (cells : list string) :
  List.length cells <= 1 ->
  Forall (fun c => count_char tab c = 0) cells ->
  drop_trailing_tabs (drop_tabs (join (String tab "") cells))
  = hd "" (filter nonempty cells).
Proof.
  intros Hlen Hplain. destruct cells as [|c [|c' rest]].
  - reflexivity.
  - inversion Hplain as [|? ? Hc _]; subst. cbn [join].
    rewrite (drop_tabs_plain _ Hc), (drop_trailing_tabs_plain _ Hc).
    destruct c; reflexivity.
  - cbn [List.length] in Hlen. lia.
Qed.

(** The variables [read] sets from a line of at most eight cells without
    tabs: the cells that are not empty, in order, then empty strings. *)
Lemma read_line_cells (cells : list string) :
  List.length cells <= 8 ->
  Forall (fun c => count_char tab c = 0) cells ->
  read_line (join (String tab "") cells)
  = mkVars (nth 0 (filter nonempty cells) "") (nth 1 (filter nonempty cells) "")
      (nth 2 (filter nonempty cells) "") (nth 3 (filter nonempty cells) "")
      (nth 4 (filter nonempty cells) "") (nth 5 (filter nonempty cells) "")
      (nth 6 (filter nonempty cells) "") (nth 7 (filter nonempty cells) "").
Proof.
  intros Hlen H0. unfold read_line.
  set (c1 := after_first cells).
  set (c2 := after_first c1). set (c3 := after_first c2).
  set (c4 := after_first c3). set (c5 := after_first c4).
  set (c6 := after_first c5). set (c7 := after_first c6).
  pose proof (after_first_plain H0) as H1. fold c1 in H1.
  pose proof (after_first_plain H1) as H2. fold c2 in H2.
  pose proof (after_first_plain H2) as H3. fold c3 in H3.
  pose proof (after_first_plain H3) as H4. fold c4 in H4.
  pose proof (after_first_plain H4) as H5. fold c5 in H5.
  pose proof (after_first_plain H5) as H6. fold c6 in H6.
  pose proof (after_first_plain H6) as H7. fold c7 in H7.
  destruct (read_step H0) as (r1 & -> & E1). fold c1 in E1. rewrite E1.
  destruct (read_step H1) as (r2 & -> & E2). fold c2 in E2. rewrite E2.
  destruct (read_step H2) as (r3 & -> & E3). fold c3 in E3. rewrite E3.
  destruct (read_step H3) as (r4 & -> & E4). fold c4 in E4. rewrite E4.
  destruct (read_step H4) as (r5 & -> & E5). fold c5 in E5. rewrite E5.
  destruct (read_step H5) as (r6 & -> & E6). fold c6 in E6. rewrite E6.
  destruct (read_step H6) as (r7 & -> & E7). fold c7 in E7. rewrite E7.
  assert (L7 : List.length c7 <= 1).
  { pose proof (after_first_length cells) as L1. fold c1 in L1.
    pose proof (after_first_length c1) as L2. fold c2 in L2.
    pose proof (after_first_length c2) as L3. fold c3 in L3.
    pose proof (after_first_length c3) as L4. fold c4 in L4.
    pose proof (after_first_length c4) as L5. fold c5 in L5.
    pose proof (after_first_length c5) as L6. fold c6 in L6.
    pose proof (after_first_length c6) as L7. fold c7 in L7.
    lia. }
  rewrite (read_last L7 H7).
  unfold c7, c6, c5, c4, c3, c2, c1. rewrite !filter_after_first.
  destruct (filter nonempty cells) as [|x1 [|x2 [|x3 [|x4 [|x5 [|x6 [|x7 [|x8 l]]]]]]]];
    reflexivity.
Qed.



(** ** The report of well-formed manifests *)

Lemma emit_rows_strings (current_time a b c : string) (fs : list finding) :
  emit_rows current_time (JStr a) (JStr b) (JStr c) fs
  = (map (row_text current_time (tsv_escape a) (tsv_escape b) (tsv_escape c))
       fs, true).
Proof.
  induction fs as [|f fs IH]; cbn [emit_rows map]; [reflexivity|].
  unfold tsv_row. cbn [tsv_field bind]. rewrite IH. reflexivity.
Qed.

Lemma audit_item_manifest (current_time exclude_ns : string) (w : Workload) :
  audit_item current_time exclude_ns (workload_json w)
  = if is_excluded (JStr (w_namespace w)) exclude_ns then ([], true)
    else (map (row_text current_time (tsv_escape (w_namespace w))
                 (tsv_escape (kind_name (w_kind w))) (tsv_escape (w_name w)))
            (manifest_issues w), true).
Proof.
  unfold audit_item, evaluate.
  destruct (raw_workload_fields (Some (kind_name (w_kind w)))
              (Some (w_namespace w)) (Some (w_name w)) (w_replicas w)
              (map container_json (w_containers w))) as (Hns & Hk & Hn).
  fold (workload_json w) in Hns, Hk, Hn. rewrite Hns. cbn [bind opt_json].
  destruct (is_excluded (JStr (w_namespace w)) exclude_ns); [reflexivity|].
  rewrite Hk, Hn. cbn [bind opt_json]. rewrite issues_manifest. cbn [bind].
  apply emit_rows_strings.
Qed.

Lemma run_items_manifests (current_time exclude_ns : string)
  (ws : list Workload) :
  run_items current_time exclude_ns (map workload_json ws)
  = (flat_map (fun w => fst (audit_item current_time exclude_ns
                               (workload_json w))) ws, true).
Proof.
  induction ws as [|w ws IH]; cbn [map run_items flat_map]; [reflexivity|].
  rewrite IH. rewrite audit_item_manifest.
  destruct (is_excluded (JStr (w_namespace w)) exclude_ns); reflexivity.
Qed.

Lemma nonempty_escape (s : string) : s <> "" -> nonempty (tsv_escape s) = true.
Proof.
  intros H. apply tsv_escape_not_empty in H.
  destruct (tsv_escape s); [congruence | reflexivity].
Qed.

Lemma catalogued_filled (f : finding) :
  catalogued f ->
  level f <> "" /\ issue f <> "" /\ rec f <> "" /\ detail f <> "".
Proof.
  intros (Hin & Hd). unfold catalogue in Hin. cbn [In] in Hin.
  assert (H3 : level f <> "" /\ issue f <> "" /\ rec f <> "").
  { destruct Hin as [E|[E|[E|[E|[E|[E|[E|[]]]]]]]]; injection E as <- <- <-;
      repeat split; discriminate. }
  destruct H3 as (? & ? & ?). repeat split; try assumption.
  destruct Hd as [-> | (t & ->)]; discriminate.
Qed.

Lemma read_row_text (current_time a b c : string) (f : finding) :
  current_time <> "" -> a <> "" -> b <> "" -> c <> "" -> catalogued f ->
  read_line (row_text current_time (tsv_escape a) (tsv_escape b)
               (tsv_escape c) f)
  = mkVars (tsv_escape current_time) (tsv_escape a) (tsv_escape b)
      (tsv_escape c) (tsv_escape (level f)) (tsv_escape (issue f))
      (tsv_escape (rec f)) (tsv_escape (detail f)).
Proof.
  intros Ht Ha Hb Hc Hf.
  destruct (catalogued_filled Hf) as (Hl & Hi & Hr & Hd).
  unfold row_text. rewrite read_line_cells.
  - cbn [filter].
    rewrite !nonempty_escape by assumption. reflexivity.
  - cbn [List.length]. lia.
  - repeat constructor; apply tsv_escape_no_tab.
Qed.

(** X8. The report of well-formed manifests. For workload manifests with
    a namespace and a name, whose strings (namespace, name, container
    names and images) and clock reading hold no NUL byte, the clock
    reading not being empty, the CSV file is the header followed,
    workload by workload in input order, by one row per finding of each
    workload that is not excluded:
    [time,namespace,kind,name,level,issue - detail,recommendation], the
    values as [@tsv] escapes them. jq ends without error. *)
Theorem X8_report_of_manifests (current_time exclude_ns : string)
  (ws : list Workload) :
  current_time <> "" ->
  no_nul current_time ->
  Forall (fun w => w_namespace w <> "" /\ w_name w <> "") ws ->
  Forall (fun w => no_nul (w_namespace w) /\ no_nul (w_name w) /\
                   Forall container_no_nul (w_containers w)) ws ->
  snd (jq_program current_time exclude_ns (list_json (map workload_json ws)))
  = true /\
  csv_lines current_time exclude_ns (list_json (map workload_json ws))
  = csv_header ::
    flat_map (fun w =>
                if is_excluded (JStr (w_namespace w)) exclude_ns then []
                else map (report_row current_time w) (manifest_issues w)) ws.
Proof.
  intros Ht _ Hws _. unfold csv_lines.
  change (jq_program current_time exclude_ns
            (list_json (map workload_json ws)))
    with (run_items current_time exclude_ns (map workload_json ws)).
  rewrite run_items_manifests. cbn [fst snd]. split; [reflexivity|].
  f_equal. induction Hws as [|w ws (Hns & Hnm) _ IH]; [reflexivity|].
  cbn [flat_map]. rewrite map_app, IH. f_equal.
  rewrite audit_item_manifest.
  destruct (is_excluded (JStr (w_namespace w)) exclude_ns); [reflexivity|].
  cbn [fst]. rewrite map_map. apply map_ext_in. intros f Hf.
  unfold report_row. f_equal. apply read_row_text; try assumption.
  - destruct (w_kind w); discriminate.
  - pose proof (issues_catalogued _ _ (issues_manifest w)) as Hall.
    rewrite Forall_forall in Hall. apply Hall. exact Hf.
Qed.

Lemma X8_report_of_manifests_witness :
  csv_lines "2026-01-01T00:00:00Z" "prod"
    (list_json (map workload_json [web; web_upper]))
  = csv_header ::
    map (report_row "2026-01-01T00:00:00Z" web_upper)
      (manifest_issues web_upper).
Proof.
  destruct (@X8_report_of_manifests "2026-01-01T00:00:00Z" "prod"
              [web; web_upper]) as (_ & H).
  - discriminate.
  - reflexivity.
  - repeat constructor; discriminate.
  - repeat constructor.
  - rewrite H. cbn [flat_map]. rewrite app_nil_r. reflexivity.
Defined.

(** ** Commas in a CSV row *)

Lemma csv_columns_unquoted (s cur : string) :
  count_char dquote s = 0 ->
  List.length (csv_columns false cur s) = S (count_char comma s).
Proof.
  revert cur. induction s as [|a s IH]; intros cur H; [reflexivity|].
  cbn [count_char] in H. cbn [csv_columns count_char].
  destruct (Ascii.eqb a dquote); [discriminate H|].
  destruct (Ascii.eqb a comma); cbn [andb negb List.length].
  - rewrite IH by exact H. reflexivity.
  - rewrite IH by exact H. reflexivity.
Qed.

(** X9. A CSV row holds six commas of its own and those of its values:
    read by a CSV reader, a row without double quotes has seven columns
    plus one for every comma inside a value; it has the seven columns of
    the header exactly when no value holds a comma. *)
Theorem X9_columns_of_a_row (v : row_vars) :
  count_char dquote (csv_row v) = 0 ->
  List.length (csv_columns false "" (csv_row v))
  = 7 + (count_char comma (TIMESTAMP v) + count_char comma (NS v)
         + count_char comma (KIND v) + count_char comma (NAME v)
         + count_char comma (LEVEL v) + count_char comma (ISSUE v)
         + count_char comma (DETAIL v) + count_char comma (REC v)).
Proof.
  intros H. rewrite (@csv_columns_unquoted (csv_row v) "" H).
  unfold csv_row. rewrite !count_char_app.
  change (count_char comma ",") with 1.
  change (count_char comma " - ") with 0. lia.
Qed.

Lemma X9_columns_of_a_row_witness :
  List.length
    (csv_columns false ""
       (csv_row (mkVars "2026-01-01T00:00:00Z" "prod" "Deployment" "web"
                   "WARN" "Using Latest Tag" "Use specific version tag"
                   "Container: app (busybox,1.36)"))) = 8.
Proof.
  apply (@X9_columns_of_a_row
           (mkVars "2026-01-01T00:00:00Z" "prod" "Deployment" "web"
              "WARN" "Using Latest Tag" "Use specific version tag"
              "Container: app (busybox,1.36)")).
  reflexivity.
Defined.

(** ** Errors and the report *)

(** X10. A workload that makes jq fail leaves no row of its own: the rows
    of one workload are printed all or not at all. The rows of a failed
    run are exactly the rows of the workloads before the first failing
    one. *)
Theorem X10_failing_workload_leaves_no_row (current_time exclude_ns : string)
  (pre rest : list json) (bad : json) :
  snd (run_items current_time exclude_ns pre) = true ->
  snd (audit_item current_time exclude_ns bad) = false ->
  fst (audit_item current_time exclude_ns bad) = [] /\
  run_items current_time exclude_ns (pre ++ bad :: rest)
  = (fst (run_items current_time exclude_ns pre), false).
Proof.
  intros Hpre Hbad. split.
  - now rewrite (@audit_item_all_or_nothing current_time exclude_ns bad Hbad).
  - apply run_items_stops; assumption.
Qed.

Lemma X10_failing_workload_leaves_no_row_witness :
  run_items "2026-01-01T00:00:00Z" ""
    ([workload_json db] ++ no_containers :: [workload_json web])
  = (fst (run_items "2026-01-01T00:00:00Z" "" [workload_json db]), false).
Proof.
  apply (@X10_failing_workload_leaves_no_row "2026-01-01T00:00:00Z" ""
           [workload_json db] [workload_json web] no_containers);
    reflexivity.
Defined.

(** X11. The script hides a failure of jq. When the prerequisites hold
    and a workload of the document makes jq fail after the workloads
    before it were audited, the script still exits with status 0 and
    leaves the very report it would leave for the document cut before the
    failing workload: nothing in the exit status or in the file tells the
    two runs apart. *)
Theorem X11_jq_failure_is_silent (w : world) (pre rest : list json)
  (bad : json) :
  kubectl_installed w = true -> jq_installed w = true ->
  cluster_reachable w = true ->
  kubectl_get w = Some (list_json (pre ++ bad :: rest)) ->
  snd (run_items (date_utc w) (EXCLUDE_NS (env_EXCLUDE_NS w)) pre) = true ->
  snd (audit_item (date_utc w) (EXCLUDE_NS (env_EXCLUDE_NS w)) bad) = false ->
  fst (script w) = 0 /\
  script w = script (with_kubectl_get w (Some (list_json pre))).
Proof.
  intros K J C G Hpre Hbad. unfold script, with_kubectl_get.
  cbn [kubectl_installed jq_installed cluster_reachable kubectl_get
       env_EXCLUDE_NS date_utc csv_file].
  rewrite K, J, C, G. cbn [negb fst]. split; [reflexivity|].
  do 3 f_equal. unfold csv_lines. f_equal. f_equal.
  change (jq_program (date_utc w) (EXCLUDE_NS (env_EXCLUDE_NS w))
            (list_json (pre ++ bad :: rest)))
    with (run_items (date_utc w) (EXCLUDE_NS (env_EXCLUDE_NS w))
            (pre ++ bad :: rest)).
  change (jq_program (date_utc w) (EXCLUDE_NS (env_EXCLUDE_NS w))
            (list_json pre))
    with (run_items (date_utc w) (EXCLUDE_NS (env_EXCLUDE_NS w)) pre).
  rewrite (@run_items_stops _ _ pre rest bad Hpre Hbad). reflexivity.
Qed.

Lemma X11_jq_failure_is_silent_witness :
  script (mkWorld true true true
            (Some (list_json ([workload_json web] ++ no_containers
                              :: [workload_json db])))
            None "2026-01-01T00:00:00Z" None)
  = script (mkWorld true true true (Some (list_json [workload_json web]))
              None "2026-01-01T00:00:00Z" None).
Proof.
  destruct (@X11_jq_failure_is_silent
              (mkWorld true true true
                 (Some (list_json ([workload_json web] ++ no_containers
                                   :: [workload_json db])))
                 None "2026-01-01T00:00:00Z" None)
              [workload_json web] [workload_json db] no_containers
              eq_refl eq_refl eq_refl eq_refl eq_refl eq_refl) as (_ & H).
  exact H.
Defined.

(** ** The exclusion list *)

(** X12. An empty [EXCLUDE_NS] does not switch the exclusion off: with the
    variable unset or set to the empty string, a workload is dropped
    exactly when its namespace is one of kube-system, kube-public,
    local-path-storage, ingress-nginx and cert-manager. *)
Theorem X12_empty_variable_keeps_the_defaults (env : option string)
  (item : json) (ns : string) :
  env = None \/ env = Some "" ->
  path ["metadata"; "namespace"] item = Ok (JStr ns) ->
  (selected (EXCLUDE_NS env) item = false <-> In ns default_namespaces).
Proof.
  intros Henv Hns.
  assert (E : EXCLUDE_NS env = default_exclude)
    by (destruct Henv as [-> | ->]; reflexivity).
  rewrite E. unfold selected. rewrite Hns.
  rewrite negb_false_iff, is_excluded_In. reflexivity.
Qed.

Lemma X12_empty_variable_keeps_the_defaults_witness :
  selected (EXCLUDE_NS (Some ""))
    (workload_json (mkWorkload DaemonSet "kube-system" "kube-proxy" None []))
  = false.
Proof.
  apply (@X12_empty_variable_keeps_the_defaults (Some "")
           (workload_json
              (mkWorkload DaemonSet "kube-system" "kube-proxy" None []))
           "kube-system" (or_intror eq_refl) eq_refl).
  cbn. auto.
Defined.

Lemma pieces_not_nil (c : ascii) (s cur : string) : pieces c cur s <> [].
Proof.
  revert cur. induction s as [|a s IH]; intros cur; cbn [pieces];
    [discriminate|].
  destruct (Ascii.eqb a c); [discriminate | apply IH].
Qed.

Lemma append_assoc (a b c : string) : (a +++ b) +++ c = a +++ (b +++ c).
Proof. induction a as [|x a IH]; cbn; [reflexivity | now rewrite IH]. Qed.

Lemma join_pieces (s cur : string) :
  join "," (pieces comma cur s) = cur +++ s.
Proof.
  revert cur. induction s as [|a s IH]; intros cur; cbn [pieces].
  - cbn [join]. now rewrite append_empty_r.
  - destruct (Ascii.eqb a comma) eqn:E.
    + apply Ascii.eqb_eq in E. subst a.
      pose proof (IH "") as H. pose proof (@pieces_not_nil comma s "") as Hn.
      destruct (pieces comma "" s) as [|x l]; [congruence|].
      change (join "," (cur :: x :: l)) with (cur +++ "," +++ join "," (x :: l)).
      rewrite H. reflexivity.
    + rewrite IH. rewrite append_assoc. reflexivity.
Qed.

Lemma length_pieces (s cur : string) :
  List.length (pieces comma cur s) = S (count_char comma s).
Proof.
  revert cur. induction s as [|a s IH]; intros cur; cbn [pieces count_char];
    [reflexivity|].
  destruct (Ascii.eqb a comma); cbn [List.length]; rewrite IH; reflexivity.
Qed.

(** X13. [split(",")] loses nothing of the exclusion string: joining its
    pieces with commas gives the string back. The empty string has no
    piece at all; any other string has one piece more than it has commas,
    so a doubled or trailing comma gives an empty piece, and spaces
    around a name stay in the piece. *)
Theorem X13_split_then_join (list : string) :
  join "," (jq_split comma list) = list /\
  List.length (jq_split comma list)
  = match list with
    | EmptyString => 0
    | String _ _ => S (count_char comma list)
    end.
Proof.
  destruct list as [|a s]; [split; reflexivity|].
  unfold jq_split. split; [apply join_pieces | apply length_pieces].
Qed.

(** ** The console table *)

Lemma length_append (a b : string) :
  String.length (a +++ b) = String.length a + String.length b.
Proof. induction a as [|x a IH]; cbn; [reflexivity | now rewrite IH]. Qed.

Lemma length_truncate (n : nat) (s : string) :
  String.length (truncate n s) = Nat.min n (String.length s).
Proof.
  unfold truncate. revert s. induction n as [|n IH]; intros s.
  - destruct s; reflexivity.
  - destruct s as [|a s]; [reflexivity|].
    cbn [substring String.length Nat.min]. now rewrite IH.
Qed.

Lemma length_spaces (n : nat) : String.length (spaces n) = n.
Proof. induction n as [|n IH]; cbn; [reflexivity | now rewrite IH]. Qed.

Lemma length_left_justify (w : nat) (s : string) :
  String.length (left_justify w s) = Nat.max w (String.length s).
Proof. unfold left_justify. rewrite length_append, length_spaces. lia. Qed.

(** X14. The console table keeps its columns for values of ASCII
    characters: the text of a row between the colour codes is 76
    characters (namespace 20, kind 12, name 30, level 10, each followed by
    a space) followed by the issue and detail cut to 50 characters, so
    never more than 126 characters, and the level always fills the ten
    characters after the first 65. *)
Theorem X14_console_columns (v : row_vars) :
  ascii_only (NS v) -> ascii_only (KIND v) -> ascii_only (NAME v) ->
  ascii_only (LEVEL v) -> ascii_only (ISSUE v) -> ascii_only (DETAIL v) ->
  String.length (console_text v)
  = 76 + Nat.min 50 (String.length (ISSUE v) + 2 + String.length (DETAIL v)) /\
  String.length (console_text v) <= 126 /\
  substring 65 10 (console_text v)
  = left_justify 10 (truncate 10 (LEVEL v)).
Proof.
  intros _ _ _ _ _ _.
  assert (Hlen : String.length (console_text v)
                 = 76 + Nat.min 50 (String.length (ISSUE v) + 2
                                    + String.length (DETAIL v))).
  { unfold console_text. cbv zeta.
    rewrite !length_append, !length_left_justify, !length_truncate.
    rewrite !length_append. cbn [String.length]. lia. }
  split; [exact Hlen|]. split; [lia|].
  unfold console_text. cbv zeta.
  set (a := left_justify 20 (truncate 20 (NS v))).
  set (b := left_justify 12 (truncate 12 (KIND v))).
  set (c := left_justify 30 (truncate 30 (NAME v))).
  set (d := left_justify 10 (truncate 10 (LEVEL v))).
  set (e := truncate 50 (ISSUE v +++ ": " +++ DETAIL v)).
  assert (Ha : String.length a = 20)
    by (unfold a; rewrite length_left_justify, length_truncate; lia).
  assert (Hb : String.length b = 12)
    by (unfold b; rewrite length_left_justify, length_truncate; lia).
  assert (Hc : String.length c = 30)
    by (unfold c; rewrite length_left_justify, length_truncate; lia).
  assert (Hd : String.length d = 10)
    by (unfold d; rewrite length_left_justify, length_truncate; lia).
  assert (Hskip : forall (p q : string) (n m : nat),
            String.length p = n ->
            substring n m (p +++ q) = substring 0 m q).
  { intros p. induction p as [|x p IH]; intros q n m Hn; cbn in Hn; subst n.
    - reflexivity.
    - cbn [String.append String.length substring]. apply IH. reflexivity. }
  assert (Htake : forall (p q : string),
            substring 0 (String.length p) (p +++ q) = p).
  { intros p. induction p as [|x p IH]; intros q.
    - destruct q; reflexivity.
    - cbn [String.append String.length substring]. now rewrite IH. }
  replace (a +++ " " +++ b +++ " " +++ c +++ " " +++ d +++ " " +++ e)
    with ((a +++ " " +++ b +++ " " +++ c +++ " ") +++ (d +++ " " +++ e))
    by (rewrite !append_assoc; reflexivity).
  rewrite (Hskip _ _ 65 10)
    by (rewrite !length_append, Ha, Hb, Hc; cbn [String.length]; lia).
  rewrite <- Hd at 1. apply Htake.
Qed.

Ltac ascii_values :=
  unfold ascii_only;
  repeat (apply Forall_cons; [cbv; lia|]); apply Forall_nil.

Lemma X14_console_columns_witness :
  String.length
    (console_text
       (mkVars "2026-01-01T00:00:00Z" "prod" "Deployment" "web" "CRITICAL"
          "Missing Requests" "Define resources.requests"
          "Container: a-container-with-a-long-name-for-the-table"))
  = 126.
Proof.
  destruct (@X14_console_columns
              (mkVars "2026-01-01T00:00:00Z" "prod" "Deployment" "web"
                 "CRITICAL" "Missing Requests" "Define resources.requests"
                 "Container: a-container-with-a-long-name-for-the-table"))
    as (H & _); [ascii_values | ascii_values | ascii_values | ascii_values
                | ascii_values | ascii_values |].
  exact H.
Defined.

(** ** What [@tsv] changes in a value *)

Lemma length_tsv_escape_char (a : ascii) :
  String.length (tsv_escape_char a)
  = 1 + count_char tab (String a "") + count_char CR (String a "")
    + count_char LF (String a "") + count_char backslash (String a "").
Proof.
  unfold tsv_escape_char. cbn [count_char]. unfold CR, LF, backslash.
  destruct (Ascii.eqb a tab) eqn:Et.
  - apply Ascii.eqb_eq in Et. subst a. reflexivity.
  - destruct (Ascii.eqb a "013") eqn:Er.
    + apply Ascii.eqb_eq in Er. subst a. reflexivity.
    + destruct (Ascii.eqb a "010") eqn:El.
      * apply Ascii.eqb_eq in El. subst a. reflexivity.
      * destruct (Ascii.eqb a "\") eqn:Eb; reflexivity.
Qed.

Lemma tsv_escape_char_same (a : ascii) :
  count_char tab (String a "") + count_char CR (String a "")
  + count_char LF (String a "") + count_char backslash (String a "") = 0 ->
  tsv_escape_char a = String a "".
Proof.
  unfold tsv_escape_char. cbn [count_char]. unfold CR, LF, backslash.
  destruct (Ascii.eqb a tab); [cbn; lia|].
  destruct (Ascii.eqb a "013"); [cbn; lia|].
  destruct (Ascii.eqb a "010"); [cbn; lia|].
  destruct (Ascii.eqb a "\"); [cbn; lia | reflexivity].
Qed.

Lemma length_tsv_escape (t : string) :
  String.length (tsv_escape t)
  = String.length t + count_char tab t + count_char CR t + count_char LF t
    + count_char backslash t.
Proof.
  induction t as [|a t IH]; [reflexivity|].
  cbn [tsv_escape]. rewrite length_append, IH, length_tsv_escape_char.
  cbn [String.length count_char]. lia.
Qed.

Lemma tsv_escape_same (s : string) :
  tsv_escape s = s <->
  count_char tab s + count_char CR s + count_char LF s
  + count_char backslash s = 0.
Proof.
  split.
  - intros H. pose proof (length_tsv_escape s) as L. rewrite H in L. lia.
  - induction s as [|a s IH]; [reflexivity|].
    intros H. cbn [tsv_escape].
    rewrite tsv_escape_char_same by (cbn [count_char] in *; lia).
    cbn [String.append]. f_equal. apply IH. cbn [count_char] in H. lia.
Qed.

(** X15. What reaches the CSV file of a value. For the row of a finding
    of the filter, with a time, namespace, kind and name that are not
    empty and hold no NUL byte (nor does the detail): [read -r] gives back
    the cells as [@tsv] escaped them and [echo] writes them as they are,
    so the CSV row is made of the escaped values. [@tsv] adds one
    backslash per tab, carriage return, line feed and backslash of a value
    and changes nothing else. So the namespace, the name and the detail
    stand in the CSV row unchanged exactly when they hold none of these
    four characters. *)
Theorem X15_escaped_values_reach_the_csv (current_time ns kind name : string)
  (f : finding) :
  current_time <> "" -> ns <> "" -> kind <> "" -> name <> "" ->
  catalogued f ->
  no_nul current_time -> no_nul ns -> no_nul kind -> no_nul name ->
  no_nul (detail f) ->
  csv_row (read_line (row_text current_time (tsv_escape ns) (tsv_escape kind)
                        (tsv_escape name) f))
  = tsv_escape current_time +++ "," +++ tsv_escape ns +++ ","
    +++ tsv_escape kind +++ "," +++ tsv_escape name +++ ","
    +++ tsv_escape (level f) +++ "," +++ tsv_escape (issue f) +++ " - "
    +++ tsv_escape (detail f) +++ "," +++ tsv_escape (rec f) /\
  (forall s : string,
     In s [ns; name; detail f] ->
     String.length (tsv_escape s)
     = String.length s + count_char tab s + count_char CR s + count_char LF s
       + count_char backslash s /\
     (tsv_escape s = s <->
      count_char tab s + count_char CR s + count_char LF s
      + count_char backslash s = 0)).
Proof.
  intros Ht Hns Hk Hn Hf _ _ _ _ _. split.
  - rewrite read_row_text by assumption. reflexivity.
  - intros s _. split; [apply length_tsv_escape | apply tsv_escape_same].
Qed.

Lemma X15_escaped_values_reach_the_csv_witness :
  csv_row
    (read_line
       (row_text "2026-01-01T00:00:00Z" (tsv_escape "prod")
          (tsv_escape "Deployment") (tsv_escape "web")
          (mkFinding "WARN" "Using Latest Tag" "Container: app (c:\img)"
             "Use specific version tag")))
  = "2026-01-01T00:00:00Z,prod,Deployment,web,WARN,Using Latest Tag - Container: app (c:\\img),Use specific version tag".
Proof.
  assert (Hf : catalogued
                 (mkFinding "WARN" "Using Latest Tag" "Container: app (c:\img)"
                    "Use specific version tag")).
  { split; [unfold catalogue; cbn; auto 10 | right; eexists; reflexivity]. }
  exact (proj1 (@X15_escaped_values_reach_the_csv "2026-01-01T00:00:00Z"
                  "prod" "Deployment" "web"
                  (mkFinding "WARN" "Using Latest Tag"
                     "Container: app (c:\img)" "Use specific version tag")
                  ltac:(discriminate) ltac:(discriminate) ltac:(discriminate)
                  ltac:(discriminate) Hf eq_refl eq_refl eq_refl eq_refl
                  eq_refl)).
Defined.

(* ------------------------------------------------------------------ *)
(** * Properties of the dashboard *)

Lemma known_level_In (i : Dashboard.AuditItem) :
  known_level i = true <->
  In (Dashboard.Issue_Level i) ["CRITICAL"; "HIGH"; "WARN"].
Proof.
  unfold known_level. rewrite !orb_true_iff, !String.eqb_eq. cbn [In].
  intuition auto.
Qed.

Lemma counts_known (data : list Dashboard.AuditItem) :
  Dashboard.count_level "CRITICAL" data + Dashboard.count_level "HIGH" data
  + Dashboard.count_level "WARN" data
  = List.length (filter known_level data).
Proof.
  unfold Dashboard.count_level.
  induction data as [|i data IH]; [reflexivity|].
  cbn [filter]. unfold known_level at 1.
  destruct (String.eqb_spec (Dashboard.Issue_Level i) "CRITICAL") as [E|_].
  - rewrite E. cbn [String.eqb Ascii.eqb Bool.eqb orb List.length]. cbn. lia.
  - destruct (String.eqb_spec (Dashboard.Issue_Level i) "HIGH") as [E|_].
    + rewrite E. cbn. lia.
    + destruct (String.eqb (Dashboard.Issue_Level i) "WARN"); cbn; lia.
Qed.

Lemma filter_length_le {A : Type} (p : A -> bool) (l : list A) :
  List.length (filter p l) <= List.length l.
Proof.
  induction l as [|a l IH]; cbn [filter List.length]; [lia|].
  destruct (p a); cbn [List.length]; lia.
Qed.

Lemma filter_length_all {A : Type} (p : A -> bool) (l : list A) :
  List.length (filter p l) = List.length l <-> Forall (fun a => p a = true) l.
Proof.
  induction l as [|a l IH]; cbn [filter List.length].
  - split; [constructor | reflexivity].
  - pose proof (filter_length_le p l) as Hle.
    destruct (p a) eqn:E; cbn [List.length].
    + split.
      * intros H. constructor; [exact E | apply IH; lia].
      * intros H. inversion H; subst. f_equal. now apply IH.
    + split; [lia|]. intros H. inversion H; subst. congruence.
Qed.

(** X16. The three severity cards never count an item twice and never
    more than there are: Critical + High + Warning is at most Total, and
    equals Total exactly when every item has one of the levels CRITICAL,
    HIGH and WARN (an item with any other level is in Total only). *)
Theorem X16_cards_partition_the_items (data : list Dashboard.AuditItem) :
  Dashboard.critical (Dashboard.stats data)
  + Dashboard.high (Dashboard.stats data)
  + Dashboard.warn (Dashboard.stats data)
  <= Dashboard.total (Dashboard.stats data) /\
  (Dashboard.critical (Dashboard.stats data)
   + Dashboard.high (Dashboard.stats data)
   + Dashboard.warn (Dashboard.stats data)
   = Dashboard.total (Dashboard.stats data) <->
   Forall (fun i => In (Dashboard.Issue_Level i) ["CRITICAL"; "HIGH"; "WARN"])
     data).
Proof.
  cbn [Dashboard.stats Dashboard.critical Dashboard.high Dashboard.warn
       Dashboard.total].
  rewrite counts_known. split; [apply filter_length_le|].
  rewrite filter_length_all. split; apply Forall_impl; intros i;
    apply known_level_In.
Qed.

Lemma filter_known_nil (data : list Dashboard.AuditItem) :
  List.length (filter known_level data) = 0 <->
  Forall (fun i => ~ In (Dashboard.Issue_Level i) ["CRITICAL"; "HIGH"; "WARN"])
    data.
Proof.
  induction data as [|i data IH]; cbn [filter].
  - split; [constructor | reflexivity].
  - destruct (known_level i) eqn:E; cbn [List.length].
    + split; [discriminate|]. intros H. inversion H as [|? ? Hi _]; subst.
      exfalso. apply Hi. now apply known_level_In.
    + rewrite IH. split.
      * intros H. constructor; [|exact H].
        rewrite <- known_level_In. congruence.
      * intros H. now inversion H.
Qed.

(** X17. The severity chart shows only slices that count something, in
    the order Critical, High, Warning, and their values add up to the
    three cards; it has no slice at all (the panel writes No data to
    display) exactly when no item has one of the three levels, even if
    the table has rows. *)
Theorem X17_chart_slices (data : list Dashboard.AuditItem) :
  Forall (fun d => 0 < Dashboard.value d) (Dashboard.chartData data) /\
  list_sum (map Dashboard.value (Dashboard.chartData data))
  = Dashboard.critical (Dashboard.stats data)
    + Dashboard.high (Dashboard.stats data)
    + Dashboard.warn (Dashboard.stats data) /\
  (Dashboard.chartData data = [] <->
   Forall (fun i => ~ In (Dashboard.Issue_Level i) ["CRITICAL"; "HIGH"; "WARN"])
     data).
Proof.
  rewrite <- filter_known_nil, <- counts_known.
  unfold Dashboard.chartData.
  cbn [Dashboard.stats Dashboard.critical Dashboard.high Dashboard.warn].
  destruct (Dashboard.count_level "CRITICAL" data) as [|c];
    destruct (Dashboard.count_level "HIGH" data) as [|h];
    destruct (Dashboard.count_level "WARN" data) as [|w];
    cbn [filter Dashboard.value Nat.ltb Nat.leb map list_sum fold_right];
    (split;
     [repeat (apply Forall_cons; [cbn [Dashboard.value]; lia|]);
      apply Forall_nil
     | split; [lia|]]);
    split; intros H; (reflexivity || discriminate H || lia).
Qed.

(** X18. The category tabs. The tab All lists every item; any other tab
    lists, in order, exactly the items whose category is that tab. An item
    without a category (or with an empty one) is labelled Stability in its
    row, but the Stability tab does not list it. *)
Theorem X18_category_tabs (data : list Dashboard.AuditItem) :
  Dashboard.visible "All" data = data /\
  (forall tab : string, tab <> "All" ->
     Dashboard.visible tab data
     = filter (fun i => Dashboard.category_is i tab) data) /\
  (forall (tab : string) (i : Dashboard.AuditItem), tab <> "All" ->
     (In i (Dashboard.visible tab data) <->
      In i data /\ Dashboard.Category i = Some tab)) /\
  (forall i : Dashboard.AuditItem,
     Dashboard.Category i = None \/ Dashboard.Category i = Some "" ->
     Dashboard.category_label i = "Stability" /\
     ~ In i (Dashboard.visible "Stability" data)).
Proof.
  assert (Htab : forall tab : string, tab <> "All" ->
            Dashboard.visible tab data
            = filter (fun i => Dashboard.category_is i tab) data).
  { intros tab Htab. unfold Dashboard.visible.
    apply filter_ext. intros i.
    destruct (String.eqb_spec tab "All"); [contradiction | reflexivity]. }
  split; [|split; [exact Htab | split]].
  - unfold Dashboard.visible. apply filter_all.
    apply Forall_forall. intros i _. reflexivity.
  - intros tab i Ht. rewrite (Htab tab Ht), filter_In.
    unfold Dashboard.category_is.
    destruct (Dashboard.Category i) as [c|].
    + rewrite String.eqb_eq. split; intros (Hin & H); split; congruence.
    + split; intros (Hin & H); discriminate.
  - intros i Hc. split.
    + unfold Dashboard.category_label.
      destruct Hc as [-> | ->]; reflexivity.
    + rewrite (Htab "Stability") by discriminate. rewrite filter_In.
      unfold Dashboard.category_is.
      destruct Hc as [-> | ->]; intros (_ & H); discriminate H.
Qed.

Lemma X18_category_tabs_witness :
  Dashboard.category_label
    (Dashboard.mkItem "2026-01-01T00:00:00Z" "prod" "Deployment" "web" "WARN"
       "Single Replica - replicas=1" "Increase replicas > 1 for HA" None)
  = "Stability" /\
  Dashboard.visible "Stability"
    [Dashboard.mkItem "2026-01-01T00:00:00Z" "prod" "Deployment" "web" "WARN"
       "Single Replica - replicas=1" "Increase replicas > 1 for HA" None]
  = [].
Proof.
  destruct (X18_category_tabs
              [Dashboard.mkItem "2026-01-01T00:00:00Z" "prod" "Deployment"
                 "web" "WARN" "Single Replica - replicas=1"
                 "Increase replicas > 1 for HA" None]) as (_ & _ & _ & H).
  destruct (H (Dashboard.mkItem "2026-01-01T00:00:00Z" "prod" "Deployment"
                 "web" "WARN" "Single Replica - replicas=1"
                 "Increase replicas > 1 for HA" None) (or_introl eq_refl))
    as (H1 & _).
  split; [exact H1 | reflexivity].
Defined.

(** ** The CSV export of the dashboard *)

Lemma csv_columns_inside (s cur rest : string) :
  count_char dquote s = 0 ->
  csv_columns true cur (s +++ rest) = csv_columns true (cur +++ s) rest.
Proof.
  revert cur. induction s as [|a s IH]; intros cur H.
  - cbn [String.append]. now rewrite append_empty_r.
  - cbn [count_char] in H. cbn [String.append csv_columns].
    destruct (Ascii.eqb a dquote); [discriminate H|].
    cbn [negb andb]. rewrite andb_false_r.
    rewrite IH by exact H. rewrite append_assoc. reflexivity.
Qed.

Lemma csv_columns_quoted (s cur rest : string) :
  count_char dquote s = 0 ->
  csv_columns false cur (Dashboard.quoted s +++ rest)
  = csv_columns false (cur +++ s) rest.
Proof.
  intros H. unfold Dashboard.quoted.
  cbn [String.append csv_columns].
  change (Ascii.eqb dquote dquote) with true. cbv iota. cbn [negb].
  rewrite append_assoc. rewrite (@csv_columns_inside s cur _ H).
  cbn [String.append csv_columns].
  change (Ascii.eqb dquote dquote) with true. reflexivity.
Qed.

Lemma csv_columns_export (vs : list string) :
  vs <> [] ->
  Forall (fun s => count_char dquote s = 0) vs ->
  csv_columns false "" (join "," (map Dashboard.quoted vs)) = vs.
Proof.
  intros Hne H. induction H as [|v vs Hv Hvs IH]; [congruence|].
  destruct vs as [|v' vs'].
  - cbn [map join]. rewrite <- (append_empty_r (Dashboard.quoted v)).
    rewrite (@csv_columns_quoted v "" "" Hv). reflexivity.
  - change (join "," (map Dashboard.quoted (v :: v' :: vs')))
      with (Dashboard.quoted v
            +++ String "," (join "," (map Dashboard.quoted (v' :: vs')))).
    rewrite (@csv_columns_quoted v "" _ Hv).
    cbn [csv_columns String.append].
    change (Ascii.eqb "," dquote) with false.
    change (Ascii.eqb "," comma) with true. cbn [andb negb].
    f_equal. apply IH. discriminate.
Qed.

(** X19. The CSV export of the dashboard keeps commas inside its values:
    every value is wrapped in double quotes, so a reader of CSV gets back
    the eight values of a row (an absent category as the text undefined)
    whenever no value holds a double quote. With no item there is no
    download at all. *)
Theorem X19_export_reads_back (i : Dashboard.AuditItem) :
  Forall (fun s => count_char dquote s = 0) (Dashboard.export_values i) ->
  csv_columns false "" (Dashboard.export_row i) = Dashboard.export_values i /\
  List.length (csv_columns false "" (Dashboard.export_row i))
  = List.length Dashboard.headers /\
  Dashboard.csvContent [] = None.
Proof.
  intros H. unfold Dashboard.export_row.
  rewrite (@csv_columns_export (Dashboard.export_values i) ltac:(discriminate) H).
  repeat split.
Qed.

Lemma X19_export_reads_back_witness :
  csv_columns false ""
    (Dashboard.export_row
       (Dashboard.mkItem "2026-01-01T00:00:00Z" "prod" "Deployment" "web"
          "WARN" "Using Latest Tag - Container: app (busybox,1.36)"
          "Use specific version tag" None))
  = ["2026-01-01T00:00:00Z"; "prod"; "Deployment"; "web"; "undefined"; "WARN";
     "Using Latest Tag - Container: app (busybox,1.36)";
     "Use specific version tag"].
Proof.
  destruct (@X19_export_reads_back
              (Dashboard.mkItem "2026-01-01T00:00:00Z" "prod" "Deployment"
                 "web" "WARN"
                 "Using Latest Tag - Container: app (busybox,1.36)"
                 "Use specific version tag" None)) as (H & _).
  - repeat constructor.
  - exact H.
Defined.

(** ** Running an audit from the dashboard *)

(** X20. After [runAudit], whatever the two answers: the loading flag is
    off; an error is shown exactly when the audit answer was an exception
    or a status other than success; the time of the last run moves
    exactly when the status was success; and the items change only when
    the status was success and the report answered. In particular a
    successful audit whose report fetch fails shows a new time of last
    run over the old items, without any error. *)
Theorem X20_run_audit_outcomes (st : Dashboard.ui) (now : string)
  (a : Dashboard.audit_reply) (r : Dashboard.report_reply) :
  Dashboard.loading (Dashboard.runAudit st now a r) = false /\
  (Dashboard.error (Dashboard.runAudit st now a r) = None <->
   exists m, a = Dashboard.AuditJson (Some "success") m) /\
  ((exists m, a = Dashboard.AuditJson (Some "success") m) ->
   Dashboard.lastRun (Dashboard.runAudit st now a r) = Some now) /\
  ((forall m, a <> Dashboard.AuditJson (Some "success") m) ->
   Dashboard.lastRun (Dashboard.runAudit st now a r) = Dashboard.lastRun st /\
   Dashboard.data (Dashboard.runAudit st now a r) = Dashboard.data st) /\
  (r = Dashboard.ReportThrows ->
   Dashboard.data (Dashboard.runAudit st now a r) = Dashboard.data st).
Proof.
  assert (Hcase : (exists m, a = Dashboard.AuditJson (Some "success") m) \/
                  (forall m, a <> Dashboard.AuditJson (Some "success") m)).
  { destruct a as [|[s|] m]; [right; discriminate | | right; discriminate].
    destruct (String.eqb_spec s "success") as [-> | Hs];
      [left; eexists; reflexivity | right; intros m' E; congruence]. }
  destruct Hcase as [(m & ->) | Hno].
  - assert (Hok : Dashboard.runAudit st now
                    (Dashboard.AuditJson (Some "success") m) r
                  = Dashboard.mkUi
                      (match r with
                       | Dashboard.ReportThrows => Dashboard.data st
                       | Dashboard.ReportJson (Some l) => l
                       | Dashboard.ReportJson None => []
                       end) false (Some now) None).
    { destruct r as [|[l|]]; reflexivity. }
    rewrite Hok.
    cbn [Dashboard.data Dashboard.loading Dashboard.lastRun Dashboard.error].
    split; [reflexivity|]. split; [|split; [|split]].
    + split; [intros _; eexists; reflexivity | reflexivity].
    + reflexivity.
    + intros Hne. exfalso. eapply Hne. reflexivity.
    + intros ->. reflexivity.
  - assert (Hfail : exists e,
              Dashboard.runAudit st now a r
              = Dashboard.mkUi (Dashboard.data st) false (Dashboard.lastRun st)
                  (Some e)).
    { destruct a as [|status m].
      - eexists; reflexivity.
      - unfold Dashboard.runAudit. cbv zeta.
        destruct status as [s|]; [|eexists; reflexivity].
        destruct (String.eqb_spec s "success") as [-> | Hs].
        + exfalso. eapply Hno. reflexivity.
        + assert (Hm : match s with
                       | "success" =>
                           Dashboard.fetchReport
                             (Dashboard.mkUi (Dashboard.data st) true
                                (Some now) None) r
                       | _ =>
                           Dashboard.mkUi (Dashboard.data st) true
                             (Dashboard.lastRun st)
                             (Some (Dashboard.failure_message m))
                       end
                       = Dashboard.mkUi (Dashboard.data st) true
                           (Dashboard.lastRun st)
                           (Some (Dashboard.failure_message m))).
          { clear -Hs.
            repeat match goal with
                   | |- context [match ?x with _ => _ end] =>
                       is_var x; destruct x; try reflexivity
                   | |- context [if ?b then _ else _] =>
                       is_var b; destruct b; try reflexivity
                   end.
            exfalso. apply Hs. reflexivity. }
          cbn [Dashboard.data Dashboard.loading Dashboard.lastRun
               Dashboard.error] in *.
          rewrite Hm. eexists; reflexivity. }
    destruct Hfail as (e & ->).
    cbn [Dashboard.data Dashboard.loading Dashboard.lastRun Dashboard.error].
    split; [reflexivity|]. split; [|split; [|split]].
    + split; [discriminate|].
      intros (m & ->). exfalso. eapply Hno. reflexivity.
    + intros (m & ->). exfalso. eapply Hno. reflexivity.
    + intros _. split; reflexivity.
    + reflexivity.
Qed.

Lemma X20_run_audit_outcomes_witness :
  Dashboard.runAudit (Dashboard.mkUi [] false None (Some "Audit failed"))
    "10:15:00" (Dashboard.AuditJson (Some "success") None)
    Dashboard.ReportThrows
  = Dashboard.mkUi [] false (Some "10:15:00") None /\
  Dashboard.data
    (Dashboard.runAudit (Dashboard.mkUi [] false None None) "10:15:00"
       (Dashboard.AuditJson (Some "error") (Some "")) Dashboard.ReportThrows)
  = [].
Proof.
  split; [reflexivity|].
  destruct (X20_run_audit_outcomes (Dashboard.mkUi [] false None None)
              "10:15:00" (Dashboard.AuditJson (Some "error") (Some ""))
              Dashboard.ReportThrows) as (_ & _ & _ & H & _).
  destruct H as (_ & H); [discriminate | exact H].
Defined.
